(** * Metadata enrichment of the book catalog (scripts/enrich.py)

    A shallow embedding of [enrich.py] and of the part of [models.py] it
    uses ([Book], [BookDB.update]), with the properties of the enrichment
    coordinator, the four source adapters and the rate delay.

    Python values are dynamically typed: a provider record is whatever
    [response.json()] returned, and the coordinator writes such values into
    the book unchecked.  The embedding therefore keeps the dynamic checks of
    Python (truthiness, [dict.get] on a non-dict, indexing, [len]) and the
    exceptions they raise.

    Conventions:
    - [enrich_book] runs in a monad of state and exceptions; the state is
      the book object, mutated in place, and the books table; a run also
      yields the list of its adapter calls, sleeps and table writes;
    - the network is a function from requests to replies, so the theorems
      hold for every behaviour of the two providers;
    - JSON numbers are integers, seconds are integers ([REQUEST_DELAY] is
      [1.0] in the source), and printing to the terminal is left out but
      for the exception [len] can raise. *)

From Stdlib Require Import ZArith String Ascii List Bool Lia DecimalString.
From stdpp Require Import base gmap strings.
Import ListNotations.
Open Scope Z_scope.

(** ** Python values *)

(** The values [json.loads] produces, [None] being [JNull].  JSON numbers
    are the integers (ids and page counts); a character of a Python [str]
    is one [ascii]. *)
#[local] Unset Elimination Schemes.
Inductive json : Type :=
| JNull
| JBool (b : bool)
| JNum (n : Z)
| JStr (s : string)
| JArr (xs : list json)
| JObj (kvs : list (string * json)).
#[local] Set Elimination Schemes.

(** The exceptions the modelled code can raise.  [JSONDecodeError] is
    [requests.exceptions.JSONDecodeError], raised by [response.json()];
    since requests 2.27 it derives from [RequestException].  [SqliteError]
    is the error of sqlite3 for a parameter it cannot bind. *)
Inductive exn : Type :=
| RequestException
| JSONDecodeError
| AttributeError
| KeyError
| IndexError
| TypeError
| ValueError
| OverflowError
| SqliteError.

Definition is_request_exception (e : exn) : bool :=
  match e with
  | RequestException | JSONDecodeError => true
  | _ => false
  end.

(** A computation that returns or raises. *)
Definition res (A : Type) : Type := exn + A.

Definition rret {A} (x : A) : res A := inr x.
Definition rraise {A} (e : exn) : res A := inl e.
Definition rbind {A B} (m : res A) (k : A -> res B) : res B :=
  match m with
  | inl e => inl e
  | inr x => k x
  end.

Notation "'let?' x ':=' m 'in' k" := (rbind m (fun x => k))
  (at level 10, x name, m at level 200, k at level 200).

(** [try: body except requests.RequestException: handler]. *)
Definition try_except_request {A} (body : res A) (handler : exn -> res A) : res A :=
  match body with
  | inl e => if is_request_exception e then handler e else inl e
  | inr x => inr x
  end.

(** [bool(v)]. *)
Definition truthy (v : json) : bool :=
  match v with
  | JNull => false
  | JBool b => b
  | JNum n => negb (n =? 0)
  | JStr s => negb (String.eqb s "")
  | JArr xs => match xs with [] => false | _ => true end
  | JObj kvs => match kvs with [] => false | _ => true end
  end.

(** A parsed JSON object is a dict; the pair list holds one binding per
    key, and a lookup finds the first. *)
Fixpoint dict_lookup (k : string) (kvs : list (string * json)) : option json :=
  match kvs with
  | [] => None
  | (k', v) :: rest => if String.eqb k k' then Some v else dict_lookup k rest
  end.

(** [d.get(k, default)]: only a dict has [get]. *)
Definition py_get (d : json) (k : string) (default : json) : res json :=
  match d with
  | JObj kvs => rret (match dict_lookup k kvs with Some v => v | None => default end)
  | _ => rraise AttributeError
  end.

(** [needle in s] on strings. *)
Fixpoint str_contains (needle s : string) : bool :=
  String.prefix needle s ||
  match s with
  | EmptyString => false
  | String _ s' => str_contains needle s'
  end.

Definition is_str (k : string) (v : json) : bool :=
  match v with
  | JStr s => String.eqb k s
  | _ => false
  end.

(** [k in c] for a string [k]: key of a dict, element of a list,
    substring of a str; anything else is not iterable. *)
Definition py_in (k : string) (c : json) : res bool :=
  match c with
  | JObj kvs => rret (match dict_lookup k kvs with Some _ => true | None => false end)
  | JArr xs => rret (existsb (is_str k) xs)
  | JStr s => rret (str_contains k s)
  | _ => rraise TypeError
  end.

(** [c[k]] for a string [k]. *)
Definition py_getitem_str (c : json) (k : string) : res json :=
  match c with
  | JObj kvs => match dict_lookup k kvs with Some v => rret v | None => rraise KeyError end
  | _ => rraise TypeError
  end.

(** [c[0]].  The keys of a parsed JSON object are strings, so [0] is never
    a key of a dict. *)
Definition py_getitem_0 (c : json) : res json :=
  match c with
  | JArr xs => match xs with x :: _ => rret x | [] => rraise IndexError end
  | JStr s => match s with String a _ => rret (JStr (String a EmptyString)) | EmptyString => rraise IndexError end
  | JObj _ => rraise KeyError
  | _ => rraise TypeError
  end.

Definition isinstance_str (v : json) : bool :=
  match v with JStr _ => true | _ => false end.

Definition isinstance_dict (v : json) : bool :=
  match v with JObj _ => true | _ => false end.

(** [len(v)], as far as it raises. *)
Definition py_len_check (v : json) : res unit :=
  match v with
  | JStr _ | JArr _ | JObj _ => rret tt
  | _ => rraise TypeError
  end.

(** [s.replace(old, new)] for a non-empty [old]: left to right, without
    overlap.  [skip] counts the characters of a match still to drop. *)
Fixpoint replace_from (old new : string) (skip : nat) (s : string) : string :=
  match s with
  | EmptyString => EmptyString
  | String a s' =>
      match skip with
      | S n => replace_from old new n s'
      | O =>
          if String.prefix old s
          then new +:+ replace_from old new (Nat.pred (String.length old)) s'
          else String a (replace_from old new O s')
      end
  end.

Definition str_replace (old new s : string) : string := replace_from old new O s.

(** [v.replace(old, new)]: only a str has [replace]. *)
Definition py_replace (v : json) (old new : string) : res json :=
  match v with
  | JStr s => rret (JStr (str_replace old new s))
  | _ => rraise AttributeError
  end.

(** ** Formatting *)

Section Formatting.

(** [str] of a list or dict is Python's [repr] of the container, with its
    quoting and escaping rules; the development takes it as given. *)
Variable container_str : json -> string.

(** [str(v)], as a format field such as [{cover_id}] prints it. *)
Definition py_str (v : json) : string :=
  match v with
  | JNull => "None"
  | JBool true => "True"
  | JBool false => "False"
  | JNum n => NilZero.string_of_int (Z.to_int n)
  | JStr s => s
  | JArr _ | JObj _ => container_str v
  end.

(** The API endpoints, as the [format] calls instantiate them. *)
Definition OPENLIBRARY_ISBN_API (isbn : string) : string :=
  "https://openlibrary.org/isbn/" +:+ isbn +:+ ".json".
Definition OPENLIBRARY_SEARCH_API : string := "https://openlibrary.org/search.json".
Definition OPENLIBRARY_WORKS_API (works_key : json) : string :=
  "https://openlibrary.org" +:+ py_str works_key +:+ ".json".
Definition OPENLIBRARY_COVER_URL (cover_id : json) : string :=
  "https://covers.openlibrary.org/b/id/" +:+ py_str cover_id +:+ "-L.jpg".
Definition GOOGLE_BOOKS_API : string := "https://www.googleapis.com/books/v1/volumes".

End Formatting.

(** Seconds between API calls ([1.0] in the source). *)
Definition REQUEST_DELAY : Z := 1.

(** ** The catalog: [models.py] *)

(** [Book], restricted to the fields [enrich.py] reads or writes; the
    others are carried through untouched.  The identifiers, title and
    author come from TEXT columns.  The four enrichable fields and
    [openlibrary_key] hold whatever the coordinator assigns, a provider
    value of any type. *)
Record Book : Type := mkBook {
  book_id : option Z;
  isbn : option string;
  isbn13 : option string;
  openlibrary_key : json;
  title : string;
  author : option string;
  publisher : json;
  page_count : json;
  cover_url : json;
  summary : json
}.

Definition with_cover_url (v : json) (b : Book) : Book :=
  mkBook (book_id b) (isbn b) (isbn13 b) (openlibrary_key b) (title b) (author b)
         (publisher b) (page_count b) v (summary b).
Definition with_summary (v : json) (b : Book) : Book :=
  mkBook (book_id b) (isbn b) (isbn13 b) (openlibrary_key b) (title b) (author b)
         (publisher b) (page_count b) (cover_url b) v.
Definition with_page_count (v : json) (b : Book) : Book :=
  mkBook (book_id b) (isbn b) (isbn13 b) (openlibrary_key b) (title b) (author b)
         (publisher b) v (cover_url b) (summary b).
Definition with_publisher (v : json) (b : Book) : Book :=
  mkBook (book_id b) (isbn b) (isbn13 b) (openlibrary_key b) (title b) (author b)
         v (page_count b) (cover_url b) (summary b).
Definition with_openlibrary_key (v : json) (b : Book) : Book :=
  mkBook (book_id b) (isbn b) (isbn13 b) v (title b) (author b)
         (publisher b) (page_count b) (cover_url b) (summary b).

(** Truthiness of an [Optional[str]] and of an [Optional[int]]. *)
Definition truthy_str (s : string) : bool := negb (String.eqb s "").
Definition truthy_ostr (o : option string) : bool :=
  match o with Some s => truthy_str s | None => false end.
Definition truthy_oint (o : option Z) : bool :=
  match o with Some n => negb (n =? 0) | None => false end.

(** [a or b]. *)
Definition py_or (a b : option string) : option string :=
  if truthy_ostr a then a else b.

(** ** Effects *)

(** The calls of the four adapters, with their arguments. *)
Inductive call : Type :=
| CallOLIsbn (isbn : string)
| CallOLSearch (title : string) (author : option string)
| CallOLWorks (works_key : json)
| CallGoogle (isbn : option string) (title : string) (author : option string).

(** What a run does to the outside: an adapter call with its outcome,
    [time.sleep(d)] in seconds, and the UPDATE statement of
    [BookDB.update] with the row it binds. *)
Inductive event : Type :=
| EvCall (c : call) (r : res json)
| EvSleep (d : Z)
| EvUpdate (b : Book).

(** The book object the coordinator mutates in place, and the books table
    keyed by id. *)
Record state : Type := mkState {
  cur : Book;
  db : gmap Z Book
}.

Record outcome (A : Type) : Type := mkOutcome {
  value : res A;
  final : state;
  events : list event
}.
Arguments mkOutcome {A} _ _ _.
Arguments value {A} _.
Arguments final {A} _.
Arguments events {A} _.

(** State and exceptions; the state reached when an exception is raised is
    kept, as the mutated book object is. *)
Definition M (A : Type) : Type := state -> outcome A.

Definition ret {A} (x : A) : M A := fun s => mkOutcome (inr x) s [].
Definition raise {A} (e : exn) : M A := fun s => mkOutcome (inl e) s [].
Definition bind {A B} (m : M A) (k : A -> M B) : M B := fun s =>
  let o1 := m s in
  match value o1 with
  | inl e => mkOutcome (inl e) (final o1) (events o1)
  | inr x =>
      let o2 := k x (final o1) in
      mkOutcome (value o2) (final o2) (events o1 ++ events o2)
  end.

Notation "'let*' x ':=' m 'in' k" := (bind m (fun x => k))
  (at level 10, x name, m at level 200, k at level 200).
Notation "'run' m 'then' k" := (bind m (fun _ => k))
  (at level 10, m at level 200, k at level 200).

Definition lift {A} (r : res A) : M A := fun s => mkOutcome r s [].
Definition emit (e : event) : M unit := fun s => mkOutcome (inr tt) s [e].
Definition get_book : M Book := fun s => mkOutcome (inr (cur s)) s [].
Definition modify_book (f : Book -> Book) : M unit := fun s =>
  mkOutcome (inr tt) (mkState (f (cur s)) (db s)) [].
Definition modify_db (f : gmap Z Book -> gmap Z Book) : M unit := fun s =>
  mkOutcome (inr tt) (mkState (cur s) (f (db s))) [].

(** [time.sleep(d)]. *)
Definition sleep (d : Z) : M unit := emit (EvSleep d).

(** What sqlite3 accepts as a statement parameter: [None], a str, an int
    of 64 bits (a bool is an int).  A list or a dict cannot be bound. *)
Definition sqlite_bind (v : json) : res unit :=
  match v with
  | JNull | JBool _ | JStr _ => rret tt
  | JNum n => if (- 2 ^ 63 <=? n) && (n <? 2 ^ 63) then rret tt else rraise OverflowError
  | JArr _ | JObj _ => rraise SqliteError
  end.

(** [BookDB.update(book)]: refuses a book without id; otherwise binds the
    fields in the order of the statement and replaces the row of that id,
    if there is one. *)
Definition BookDB_update (book : Book) : M unit :=
  if negb (truthy_oint (book_id book)) then raise ValueError
  else
    run lift (sqlite_bind (openlibrary_key book)) then
    run lift (sqlite_bind (publisher book)) then
    run lift (sqlite_bind (page_count book)) then
    run lift (sqlite_bind (cover_url book)) then
    run lift (sqlite_bind (summary book)) then
    run lift (sqlite_bind (JNum (default 0 (book_id book)))) then
    run emit (EvUpdate book) then
    let row := default 0 (book_id book) in
    modify_db (fun rows => match rows !! row with
                           | Some _ => <[row := book]> rows
                           | None => rows
                           end).

(** [BookDB.get(book_id)]: the row of that id as a [Book], or [None]. *)
Definition BookDB_get (id : Z) : M (option Book) :=
  run lift (sqlite_bind (JNum id)) then
  fun s => mkOutcome (inr (db s !! id)) s [].




(** ** The network *)

(** [requests.get(url, params=params, timeout=10)] either raises a
    [RequestException] (connection error, timeout, invalid URL) or gives a
    response; the body of a response is JSON or not. *)
Record request : Type := mkRequest {
  url : string;
  params : list (string * json)
}.

Record response : Type := mkResponse {
  status_code : Z;
  body : option json
}.

Inductive http_result : Type :=
| Fails
| Responds (r : response).

Definition world : Type := request -> http_result.

Definition requests_get (w : world) (u : string) (ps : list (string * json)) : res response :=
  match w (mkRequest u ps) with
  | Fails => rraise RequestException
  | Responds r => rret r
  end.

(** [response.json()]. *)
Definition response_json (r : response) : res json :=
  match body r with
  | Some j => rret j
  | None => rraise JSONDecodeError
  end.

(** ** The source adapters and the coordinator *)

Section Enrich.

Variable container_str : json -> string.
Variable w : world.

Definition fetch_openlibrary_by_isbn (ident : string) : res json :=
  try_except_request
    (let u := OPENLIBRARY_ISBN_API ident in
     let? response := requests_get w u [] in
     if status_code response =? 200 then response_json response
     else if status_code response =? 404 then rret JNull
     else rret JNull)
    (fun _ => rret JNull).

(** [params] of the search: the author only when there is one. *)
Definition search_params (ttl : string) (auth : option string) : list (string * json) :=
  let ps := [("title"%string, JStr ttl); ("limit"%string, JNum 1)] in
  match auth with
  | Some a => if truthy_str a then ps ++ [("author"%string, JStr a)] else ps
  | None => ps
  end.

Definition fetch_openlibrary_by_title_author (ttl : string) (auth : option string) : res json :=
  try_except_request
    (let ps := search_params ttl auth in
     let? response := requests_get w OPENLIBRARY_SEARCH_API ps in
     if status_code response =? 200 then
       let? data := response_json response in
       let? docs := py_get data "docs" JNull in
       if truthy docs then
         let? docs := py_getitem_str data "docs" in
         py_getitem_0 docs
       else rret JNull
     else rret JNull)
    (fun _ => rret JNull).

Definition fetch_openlibrary_works (works_key : json) : res json :=
  try_except_request
    (let u := OPENLIBRARY_WORKS_API container_str works_key in
     let? response := requests_get w u [] in
     if status_code response =? 200 then response_json response
     else rret JNull)
    (fun _ => rret JNull).

(** The query of [fetch_google_books], [None] when neither an ISBN nor a
    title is given. *)
Definition google_query (ident : option string) (ttl : string) (auth : option string)
  : option string :=
  if truthy_ostr ident then Some ("isbn:" +:+ default ""%string ident)
  else if truthy_str ttl && truthy_ostr auth
       then Some ("intitle:" +:+ ttl +:+ " inauthor:" +:+ default ""%string auth)
  else if truthy_str ttl then Some ("intitle:" +:+ ttl)
  else None.

Definition google_params (query : string) : list (string * json) :=
  [("q"%string, JStr query); ("maxResults"%string, JNum 1)].

Definition fetch_google_books (ident : option string) (ttl : string) (auth : option string)
  : res json :=
  try_except_request
    (match google_query ident ttl auth with
     | None => rret JNull
     | Some query =>
         let ps := google_params query in
         let? response := requests_get w GOOGLE_BOOKS_API ps in
         if status_code response =? 200 then
           let? data := response_json response in
           let? items := py_get data "items" JNull in
           if truthy items then
             let? items := py_getitem_str data "items" in
             let? item := py_getitem_0 items in
             py_get item "volumeInfo" (JObj [])
           else rret JNull
         else rret JNull
     end)
    (fun _ => rret JNull).

Definition extract_description (data : json) (source : string) : res json :=
  if String.eqb source "openlibrary" then
    let? desc := py_get data "description" JNull in
    if isinstance_dict desc then py_get desc "value" JNull
    else if isinstance_str desc then rret desc
    else rret JNull
  else if String.eqb source "google" then
    py_get data "description" JNull
  else rret JNull.

(** The loop over ["large"], ["medium"], ["thumbnail"]. *)
Fixpoint first_image_link (keys : list string) (image_links : json) : res json :=
  match keys with
  | [] => rret JNull
  | key :: keys' =>
      let? present := py_in key image_links in
      if present then
        let? link := py_getitem_str image_links key in
        let? u := py_replace link "&edge=curl" "" in
        py_replace u "zoom=1" "zoom=2"
      else first_image_link keys' image_links
  end.

Definition extract_cover_url (data : json) (source : string) : res json :=
  if String.eqb source "openlibrary" then
    let? covers := py_get data "covers" (JArr []) in
    if truthy covers then
      let? c := py_getitem_0 covers in
      rret (JStr (OPENLIBRARY_COVER_URL container_str c))
    else
      let? cover_id := py_get data "cover_i" JNull in
      if truthy cover_id then rret (JStr (OPENLIBRARY_COVER_URL container_str cover_id))
      else rret JNull
  else if String.eqb source "google" then
    let? image_links := py_get data "imageLinks" (JObj []) in
    first_image_link ["large"; "medium"; "thumbnail"]%string image_links
  else rret JNull.

(** The adapter behind each call. *)
Definition run_adapter (c : call) : res json :=
  match c with
  | CallOLIsbn i => fetch_openlibrary_by_isbn i
  | CallOLSearch t a => fetch_openlibrary_by_title_author t a
  | CallOLWorks k => fetch_openlibrary_works k
  | CallGoogle i t a => fetch_google_books i t a
  end.

(** An adapter call: its outcome is recorded, and an exception it lets
    through propagates. *)
Definition adapter (c : call) : M json :=
  run emit (EvCall c (run_adapter c)) then lift (run_adapter c).

(** Lines 189-195: the work key, under ["works"] in the record of an ISBN
    lookup and under ["key"] in a search result. *)
Definition works_key_of (ol_data : json) : res json :=
  let? has_works := py_in "works" ol_data in
  let? from_isbn :=
    if has_works then
      let? works := py_getitem_str ol_data "works" in rret (truthy works)
    else rret false in
  if from_isbn then
    let? works := py_getitem_str ol_data "works" in
    let? work := py_getitem_0 works in
    py_get work "key" JNull
  else
    let? has_key := py_in "key" ol_data in
    if has_key then py_get ol_data "key" JNull else rret JNull.

(** Lines 169-206: the lookups, each followed by the delay.  The result is
    [(ol_data, ol_works_data, google_data)]. *)
Definition fetch_records (needs_cover needs_summary : bool) : M (json * json * json) :=
  let* book := get_book in
  let ident := py_or (isbn13 book) (isbn book) in
  let* ol_data :=
    if truthy_ostr ident then
      let* r := adapter (CallOLIsbn (default ""%string ident)) in
      run sleep REQUEST_DELAY then ret r
    else ret JNull in
  let* ol_data :=
    if negb (truthy ol_data) && truthy_str (title book) then
      let* r := adapter (CallOLSearch (title book) (author book)) in
      run sleep REQUEST_DELAY then ret r
    else ret ol_data in
  let* ol_works_data :=
    if truthy ol_data then
      let* works_key := lift (works_key_of ol_data) in
      if truthy works_key && needs_summary then
        let* r := adapter (CallOLWorks works_key) in
        run sleep REQUEST_DELAY then ret r
      else ret JNull
    else ret JNull in
  let* google_data :=
    if needs_cover || needs_summary then
      let* r := adapter (CallGoogle ident (title book) (author book)) in
      run sleep REQUEST_DELAY then ret r
    else ret JNull in
  ret (ol_data, ol_works_data, google_data).

(** Lines 212-216. *)
Definition select_cover (ol_data google_data : json) : res json :=
  let? cover :=
    if truthy ol_data then extract_cover_url ol_data "openlibrary" else rret JNull in
  if negb (truthy cover) && truthy google_data
  then extract_cover_url google_data "google"
  else rret cover.

(** Lines 225-231. *)
Definition select_summary (ol_works_data google_data : json) : res json :=
  let? summary :=
    if truthy ol_works_data then extract_description ol_works_data "openlibrary"
    else rret JNull in
  if negb (truthy summary) && truthy google_data
  then extract_description google_data "google"
  else rret summary.

(** Lines 240-244. *)
Definition select_page_count (ol_data google_data : json) : res json :=
  let? from_ol :=
    if truthy ol_data then
      let? n := py_get ol_data "number_of_pages" JNull in rret (truthy n)
    else rret false in
  if from_ol then py_getitem_str ol_data "number_of_pages"
  else
    let? from_google :=
      if truthy google_data then
        let? n := py_get google_data "pageCount" JNull in rret (truthy n)
      else rret false in
    if from_google then py_getitem_str google_data "pageCount" else rret JNull.

(** Lines 253-259. *)
Definition select_publisher (ol_data google_data : json) : res json :=
  if truthy ol_data then
    let? publishers := py_get ol_data "publishers" (JArr []) in
    if truthy publishers then
      let? first := py_getitem_0 publishers in
      if isinstance_str first then rret first else py_get first "name" JNull
    else rret JNull
  else if truthy google_data then py_get google_data "publisher" JNull
  else rret JNull.

(** Lines 211-221. *)
Definition apply_cover (needs_cover : bool) (ol_data google_data : json) (updated : bool)
  : M bool :=
  if needs_cover then
    let* cover := lift (select_cover ol_data google_data) in
    if truthy cover then run modify_book (with_cover_url cover) then ret true
    else ret updated
  else ret updated.

(** Lines 224-236; the message printed last takes [len(summary)]. *)
Definition apply_summary (needs_summary : bool) (ol_works_data google_data : json)
  (updated : bool) : M bool :=
  if needs_summary then
    let* summary := lift (select_summary ol_works_data google_data) in
    if truthy summary then
      run modify_book (with_summary summary) then
      run lift (py_len_check summary) then
      ret true
    else ret updated
  else ret updated.

(** Lines 239-249. *)
Definition apply_page_count (needs_page_count : bool) (ol_data google_data : json)
  (updated : bool) : M bool :=
  if needs_page_count then
    let* page_count := lift (select_page_count ol_data google_data) in
    if truthy page_count then run modify_book (with_page_count page_count) then ret true
    else ret updated
  else ret updated.

(** Lines 252-264. *)
Definition apply_publisher (needs_publisher : bool) (ol_data google_data : json)
  (updated : bool) : M bool :=
  if needs_publisher then
    let* publisher := lift (select_publisher ol_data google_data) in
    if truthy publisher then run modify_book (with_publisher publisher) then ret true
    else ret updated
  else ret updated.

(** Lines 267-271. *)
Definition store_key (ol_data : json) (updated : bool) : M bool :=
  let* book := get_book in
  if truthy ol_data && negb (truthy (openlibrary_key book)) then
    let* key := lift (py_get ol_data "key" JNull) in
    if truthy key then run modify_book (with_openlibrary_key key) then ret true
    else ret updated
  else ret updated.

(** Lines 274-280. *)
Definition save (updated : bool) : M bool :=
  if updated then
    let* book := get_book in
    run BookDB_update book then ret true
  else ret false.

(** Lines 169-280: the lookups, the fusion and the write. *)
Definition enrich_needed (needs_cover needs_summary needs_page_count needs_publisher : bool)
  : M bool :=
  let updated := false in
  let* records := fetch_records needs_cover needs_summary in
  let '(ol_data, ol_works_data, google_data) := records in
  let* updated := apply_cover needs_cover ol_data google_data updated in
  let* updated := apply_summary needs_summary ol_works_data google_data updated in
  let* updated := apply_page_count needs_page_count ol_data google_data updated in
  let* updated := apply_publisher needs_publisher ol_data google_data updated in
  let* updated := store_key ol_data updated in
  save updated.

(** [force or not field], lines 160-163. *)
Definition needs (force : bool) (field : json) : bool := force || negb (truthy field).

Definition enrich_book (force : bool) : M bool :=
  let* book := get_book in
  let needs_cover := needs force (cover_url book) in
  let needs_summary := needs force (summary book) in
  let needs_page_count := needs force (page_count book) in
  let needs_publisher := needs force (publisher book) in
  if negb (needs_cover || needs_summary || needs_page_count || needs_publisher)
  then ret false
  else enrich_needed needs_cover needs_summary needs_page_count needs_publisher.

(** The request behind a call; [fetch_google_books] sends none without a
    query. *)
Definition request_of (c : call) : option request :=
  match c with
  | CallOLIsbn i => Some (mkRequest (OPENLIBRARY_ISBN_API i) [])
  | CallOLSearch t a => Some (mkRequest OPENLIBRARY_SEARCH_API (search_params t a))
  | CallOLWorks k => Some (mkRequest (OPENLIBRARY_WORKS_API container_str k) [])
  | CallGoogle i t a =>
      match google_query i t a with
      | Some q => Some (mkRequest GOOGLE_BOOKS_API (google_params q))
      | None => None
      end
  end.

(** Lines 290-303 of [main], without [--dry-run]: the book of the id given
    with [--book-id] (an id other than [0], which [main] takes for none) is
    fetched and enriched; an unknown id is reported and nothing is done. *)
Definition enrich_by_id (id : Z) (force : bool) : M unit :=
  let* found := BookDB_get id in
  match found with
  | None => ret tt
  | Some book =>
      run modify_book (fun _ => book) then
      run enrich_book force then
      ret tt
  end.

(** Lines 322-326 of [main]: the books the store listed are enriched one
    after the other, and those for which [enrich_book] returns [True] are
    counted. *)
Fixpoint enrich_books (force : bool) (books : list Book) (enriched : nat) : M nat :=
  match books with
  | [] => ret enriched
  | book :: books' =>
      run modify_book (fun _ => book) then
      let* changed := enrich_book force in
      enrich_books force books' (if changed then S enriched else enriched)
  end.

End Enrich.

(** * The vocabulary of the properties *)

(** A relation between the state before and after that every step of a
    computation keeps, whether it returns or raises. *)
Definition preserves {A} (R : state -> state -> Prop) (m : M A) : Prop :=
  forall s, R s (final (m s)).

(** The book field [f] is as before. *)
Definition keeps {T} (f : Book -> T) : state -> state -> Prop :=
  fun s s' => f (cur s') = f (cur s).

(** A key that is set stays. *)
Definition keeps_key : state -> state -> Prop :=
  fun s s' =>
    truthy (openlibrary_key (cur s)) = true ->
    openlibrary_key (cur s') = openlibrary_key (cur s).

(** The book field [f] is as before or holds a value Python takes for
    true. *)
Definition fills (f : Book -> json) : state -> state -> Prop :=
  fun s s' => f (cur s') = f (cur s) \/ truthy (f (cur s')) = true.

(** The number of adapter calls and the seconds slept in a run. *)
Fixpoint calls (tr : list event) : nat :=
  match tr with
  | [] => O
  | EvCall _ _ :: tr' => S (calls tr')
  | _ :: tr' => calls tr'
  end.

Fixpoint slept (tr : list event) : Z :=
  match tr with
  | [] => 0
  | EvSleep d :: tr' => d + slept tr'
  | _ :: tr' => slept tr'
  end.

(** Every adapter call returned and was followed at once by the delay. *)
Inductive paced : list event -> Prop :=
| paced_nil : paced []
| paced_call c v tr :
    paced tr -> paced (EvCall c (inr v) :: EvSleep REQUEST_DELAY :: tr)
| paced_update b tr : paced tr -> paced (EvUpdate b :: tr).

(** The same up to a last adapter call, which raised [e]. *)
Inductive raised_at (e : exn) : list event -> Prop :=
| raised_here c : raised_at e [EvCall c (inl e)]
| raised_call c v tr :
    raised_at e tr -> raised_at e (EvCall c (inr v) :: EvSleep REQUEST_DELAY :: tr)
| raised_update b tr : raised_at e tr -> raised_at e (EvUpdate b :: tr).

Definition governed {A} (m : M A) : Prop :=
  forall s,
    match value (m s) with
    | inr _ => paced (events (m s))
    | inl e => paced (events (m s)) \/ raised_at e (events (m s))
    end.





(** Network error, status other than 200, or a body that does not parse. *)
Definition reply_failed (r : http_result) : bool :=
  match r with
  | Fails => true
  | Responds rsp =>
      negb (status_code rsp =? 200) || match body rsp with Some _ => false | None => true end
  end.

(** From [s], [m] returns [x] in state [s'] after the events [tr]. *)
Definition returns {A} (m : M A) (s : state) (x : A) (s' : state) (tr : list event) : Prop :=
  m s = mkOutcome (inr x) s' tr.

(** The state after the assignment [book.field = v]. *)
Definition writes (wr : json -> Book -> Book) (s : state) (v : json) : state :=
  mkState (wr v (cur s)) (db s).

(** The row [BookDB.update] leaves in the table. *)
Definition updated_rows (book : Book) (rows : gmap Z Book) : gmap Z Book :=
  match rows !! default 0 (book_id book) with
  | Some _ => <[default 0 (book_id book) := book]> rows
  | None => rows
  end.

(** A record supplies a field when it is there and Python takes the value
    for true. *)
Definition supplies (record : json) (field : string) (v : json) : Prop :=
  truthy record = true /\ py_get record field JNull = inr v /\ truthy v = true.

Definition supplies_none (record : json) (field : string) : Prop :=
  truthy record = false \/
  exists v, py_get record field JNull = inr v /\ truthy v = false.

(** The number of UPDATE statements of a run. *)
Fixpoint updates (tr : list event) : nat :=
  match tr with
  | [] => O
  | EvUpdate _ :: tr' => S (updates tr')
  | _ :: tr' => updates tr'
  end.

(** The calls that supplement the first Primary record: the works lookup
    and the Secondary search. *)
Definition is_supplement_call (e : event) : bool :=
  match e with
  | EvCall (CallOLWorks _) _ | EvCall (CallGoogle _ _ _) _ => true
  | _ => false
  end.

(** The calls of the Primary search by title. *)
Definition is_search_call (e : event) : bool :=
  match e with
  | EvCall (CallOLSearch _ _) _ => true
  | _ => false
  end.

(** No event of the run satisfies [p]. *)
Definition never {A} (p : event -> bool) (m : M A) : Prop :=
  forall s, Forall (fun e => p e = false) (events (m s)).

(** The run counts at most [n] events by [measure]. *)
Definition within {A} (measure : list event -> nat) (n : nat) (m : M A) : Prop :=
  forall s, (measure (events (m s)) <= n)%nat.

(** The identity of the book is as before: id, ISBNs, title and author. *)
Definition keeps_identity : state -> state -> Prop :=
  fun s s' =>
    book_id (cur s') = book_id (cur s) /\ isbn (cur s') = isbn (cur s) /\
    isbn13 (cur s') = isbn13 (cur s) /\ title (cur s') = title (cur s) /\
    author (cur s') = author (cur s).

(** The table has the same ids as before, and the same rows but for the
    row of the book at hand, whose id is as before. *)
Definition keeps_other_rows : state -> state -> Prop :=
  fun s s' =>
    book_id (cur s') = book_id (cur s) /\
    (forall i : Z, i <> default 0 (book_id (cur s)) -> db s' !! i = db s !! i) /\
    (forall i : Z, is_Some (db s' !! i) <-> is_Some (db s !! i)).




(** The table is as before when the book has no id. *)
Definition keeps_table_without_id : state -> state -> Prop :=
  fun s s' =>
    book_id (cur s') = book_id (cur s) /\
    (truthy_oint (book_id (cur s)) = false -> db s' = db s).

(** The table is as before. *)
Definition keeps_table : state -> state -> Prop := fun s s' => db s' = db s.

(** When the run raises, it has issued no UPDATE and the table is as
    before. *)
Definition clean_raise {A} (m : M A) : Prop :=
  forall s e, value (m s) = inl e ->
    db (final (m s)) = db s /\ updates (events (m s)) = O.

(** ** Sample catalog entries and mocked providers *)

(** A mocked network: the JSON body served for each URL (for the search
    endpoints, each query), 404 for anything else. *)
Definition route_of (r : request) : string :=
  match dict_lookup "q" (params r), dict_lookup "title" (params r) with
  | Some (JStr q), _ => url r +:+ "?q=" +:+ q
  | _, Some (JStr t) => url r +:+ "?title=" +:+ t
  | _, _ => url r
  end.

Definition serve (routes : list (string * json)) : world :=
  fun r =>
    match dict_lookup (route_of r) routes with
    | Some data => Responds (mkResponse 200 (Some data))
    | None => Responds (mkResponse 404 None)
    end.

(** Containers never reach a format field in the samples. *)
Definition plain_str : json -> string := fun _ => ""%string.

Definition dune_isbn : string := "9780441172719".
Definition dune_isbn_url : string := "https://openlibrary.org/isbn/9780441172719.json".
Definition dune_works_url : string := "https://openlibrary.org/works/OL893415W.json".
Definition dune_google_route : string :=
  "https://www.googleapis.com/books/v1/volumes?q=isbn:9780441172719".
Definition dune_search_route : string := "https://openlibrary.org/search.json?title=Dune".
Definition dune_cover : string := "https://covers.openlibrary.org/b/id/42-L.jpg".

(** A row fresh from the CSV import: identifiers, title and author only. *)
Definition book_imported : Book :=
  mkBook (Some 7) None (Some dune_isbn) JNull "Dune" (Some "Frank Herbert"%string)
         JNull JNull JNull JNull.

(** A row with every enrichable field filled. *)
Definition book_complete : Book :=
  mkBook (Some 7) None (Some dune_isbn) (JStr "/books/OL1M") "Dune"
         (Some "Frank Herbert"%string)
         (JStr "Ace Books") (JNum 412) (JStr dune_cover) (JStr "A desert planet.").

(** The same with a page count of [0], as the import stores it for a CSV
    cell ["0"]. *)
Definition book_zero_pages : Book := with_page_count (JNum 0) book_complete.

(** A row that lacks the page count and the key only. *)
Definition book_no_pages : Book :=
  with_openlibrary_key JNull (with_page_count JNull book_complete).

Definition catalog_of (b : Book) : state := mkState b (<[7 := b]> ∅).

(** The ISBN lookup knows the page count only. *)
Definition record_pages : json := JObj [("number_of_pages"%string, JNum 412)].
Definition w_pages : world := serve [(dune_isbn_url, record_pages)].

(** The ISBN lookup knows the key only. *)
Definition record_key : json := JObj [("key"%string, JStr "/books/OL1M")].
Definition w_key : world := serve [(dune_isbn_url, record_key)].

(** The ISBN record carries a description and cover ids; no works record,
    nothing at the Secondary. *)
Definition record_described : json :=
  JObj [("key"%string, JStr "/books/OL1M");
        ("covers"%string, JArr [JNum 42]);
        ("description"%string, JObj [("value"%string, JStr "X")])].
Definition w_described : world := serve [(dune_isbn_url, record_described)].

(** The ISBN record points to a works record, which carries the
    description. *)
Definition record_edition : json :=
  JObj [("key"%string, JStr "/books/OL1M");
        ("covers"%string, JArr [JNum 42]);
        ("works"%string, JArr [JObj [("key"%string, JStr "/works/OL893415W")]])].
Definition record_work : json :=
  JObj [("description"%string, JObj [("value"%string, JStr "X")])].
Definition w_works : world :=
  serve [(dune_isbn_url, record_edition); (dune_works_url, record_work)].

(** Both providers know a page count, and differ. *)
Definition volume_pages : json := JObj [("pageCount"%string, JNum 500)].
Definition w_both_pages : world :=
  serve [(dune_isbn_url, record_pages);
         (dune_google_route, JObj [("items"%string,
            JArr [JObj [("volumeInfo"%string, volume_pages)]])])].

(** The Primary record has no publisher, the Secondary has one. *)
Definition volume_publisher : json :=
  JObj [("publisher"%string, JStr "Ace Books"); ("description"%string, JStr "A desert planet.")].
Definition google_publisher_reply : json :=
  JObj [("items"%string, JArr [JObj [("volumeInfo"%string, volume_publisher)]])].
Definition w_publisher_secondary : world :=
  serve [(dune_isbn_url, record_key); (dune_google_route, google_publisher_reply)].

(** The Primary record has an empty publisher name, the Secondary a real
    one. *)
Definition record_empty_publisher : json :=
  JObj [("key"%string, JStr "/books/OL1M"); ("publishers"%string, JArr [JStr ""])].
Definition w_empty_publisher : world :=
  serve [(dune_isbn_url, record_empty_publisher); (dune_google_route, google_publisher_reply)].

(** The search endpoint answers 200 with a JSON array instead of an
    object. *)
Definition w_search_array : world := serve [(dune_search_route, JArr [])].

(** A row with a title only, a row without ISBN and with an empty title,
    and a book object that has no row yet. *)
Definition book_title_only : Book :=
  mkBook (Some 7) None None JNull "Dune" None JNull JNull JNull JNull.

Definition book_blank : Book :=
  mkBook (Some 7) None None JNull "" None JNull JNull JNull JNull.

Definition book_unsaved : Book :=
  mkBook None None (Some dune_isbn) JNull "Dune" (Some "Frank Herbert"%string)
         JNull JNull JNull JNull.

(** * Properties *)

Section Properties.

Variable container_str : json -> string.
Variable w : world.

#[local] Abbreviation fetch_openlibrary_by_isbn := (fetch_openlibrary_by_isbn w).
#[local] Abbreviation fetch_openlibrary_by_title_author := (fetch_openlibrary_by_title_author w).
#[local] Abbreviation fetch_openlibrary_works := (fetch_openlibrary_works container_str w).
#[local] Abbreviation fetch_google_books := (fetch_google_books w).
#[local] Abbreviation extract_cover_url := (extract_cover_url container_str).
#[local] Abbreviation run_adapter := (run_adapter container_str w).
#[local] Abbreviation adapter := (adapter container_str w).
#[local] Abbreviation fetch_records := (fetch_records container_str w).
#[local] Abbreviation select_cover := (select_cover container_str).
#[local] Abbreviation apply_cover := (apply_cover container_str).
#[local] Abbreviation enrich_needed := (enrich_needed container_str w).
#[local] Abbreviation enrich_book := (enrich_book container_str w).
#[local] Abbreviation enrich_by_id := (enrich_by_id container_str w).
#[local] Abbreviation enrich_books := (enrich_books container_str w).
#[local] Abbreviation request_of := (request_of container_str).

(** ** Python strings *)

Example replace_zoom :
  str_replace "zoom=1" "zoom=2" "http://b/c?id=1&zoom=1&edge=curl&zoom=1" =
  "http://b/c?id=1&zoom=2&edge=curl&zoom=2"%string.
Proof. reflexivity. Qed.

Example replace_curl :
  str_replace "&edge=curl" "" "http://b/c?id=1&zoom=1&edge=curl" = "http://b/c?id=1&zoom=1"%string.
Proof. reflexivity. Qed.

(** ** Reasoning about runs *)

Lemma value_bind_inr {A B} (m : M A) (k : A -> M B) (s : state) (y : B) :
  value (bind m k s) = inr y ->
  exists x, value (m s) = inr x /\ value (k x (final (m s))) = inr y.
Proof.
  unfold bind. destruct (value (m s)) as [e | x] eqn:Hm; simpl; intros H.
  - discriminate.
  - eauto.
Qed.

Lemma final_bind_inr {A B} (m : M A) (k : A -> M B) (s : state) (x : A) :
  value (m s) = inr x -> final (bind m k s) = final (k x (final (m s))).
Proof. intros H. unfold bind. rewrite H. reflexivity. Qed.

Lemma value_bind_of_inr {A B} (m : M A) (k : A -> M B) (s : state) (x : A) :
  value (m s) = inr x -> value (bind m k s) = value (k x (final (m s))).
Proof. intros H. unfold bind. rewrite H. reflexivity. Qed.

Lemma events_bind_inr {A B} (m : M A) (k : A -> M B) (s : state) (x : A) :
  value (m s) = inr x ->
  events (bind m k s) = events (m s) ++ events (k x (final (m s))).
Proof. intros H. unfold bind. rewrite H. reflexivity. Qed.

Section Preserves.

Context (R : state -> state -> Prop) `{!PreOrder R}.

Lemma preserves_bind {A B} (m : M A) (k : A -> M B) :
  preserves R m -> (forall x, preserves R (k x)) -> preserves R (bind m k).
Proof.
  intros Hm Hk s. unfold bind.
  destruct (value (m s)) as [e | x]; simpl.
  - apply Hm.
  - transitivity (final (m s)); [apply Hm | apply Hk].
Qed.

Lemma preserves_ret {A} (x : A) : preserves R (ret x).
Proof. intros s. reflexivity. Qed.

Lemma preserves_raise {A} (e : exn) : preserves R (@raise A e).
Proof. intros s. reflexivity. Qed.

Lemma preserves_lift {A} (r : res A) : preserves R (lift r).
Proof. intros s. reflexivity. Qed.

Lemma preserves_emit (e : event) : preserves R (emit e).
Proof. intros s. reflexivity. Qed.

Lemma preserves_get_book : preserves R get_book.
Proof. intros s. reflexivity. Qed.

Lemma preserves_modify_book (f : Book -> Book) :
  (forall s, R s (mkState (f (cur s)) (db s))) -> preserves R (modify_book f).
Proof. intros H s. apply H. Qed.

Lemma preserves_modify_db (f : gmap Z Book -> gmap Z Book) :
  (forall s, R s (mkState (cur s) (f (db s)))) -> preserves R (modify_db f).
Proof. intros H s. apply H. Qed.

End Preserves.

(** The steps of a computation, taken apart down to the primitives. *)
Ltac preserves_steps_using known :=
  repeat first
    [ solve [ known ]
    | solve [ apply preserves_ret; typeclasses eauto ]
    | solve [ apply preserves_raise; typeclasses eauto ]
    | solve [ apply preserves_lift; typeclasses eauto ]
    | solve [ apply preserves_emit; typeclasses eauto ]
    | solve [ apply preserves_get_book; typeclasses eauto ]
    | solve [ apply preserves_modify_book; intros; hnf; intros; reflexivity ]
    | solve [ apply preserves_modify_db; intros; hnf; intros; reflexivity ]
    | apply preserves_bind; [ typeclasses eauto | | intros ]
    | match goal with
      | |- preserves _ (if ?c then _ else _) => destruct c eqn:?
      | |- preserves _ (match ?x with _ => _ end) => destruct x eqn:?
      end ].

Ltac preserves_steps := preserves_steps_using fail.

#[local] Instance keeps_preorder {T} (f : Book -> T) : PreOrder (keeps f).
Proof.
  split.
  - intros s. reflexivity.
  - intros s1 s2 s3 H12 H23. unfold keeps in *. congruence.
Qed.

#[local] Instance keeps_key_preorder : PreOrder keeps_key.
Proof.
  split.
  - intros s _. reflexivity.
  - intros s1 s2 s3 H12 H23 H. unfold keeps_key in *.
    rewrite H23; rewrite H12; auto.
Qed.

Lemma fetch_records_state nc ns : preserves eq (fetch_records nc ns).
Proof. unfold fetch_records, adapter, sleep. preserves_steps. Qed.

Lemma BookDB_update_keeps {T} (f : Book -> T) b : preserves (keeps f) (BookDB_update b).
Proof. unfold BookDB_update. preserves_steps. Qed.

Lemma save_keeps {T} (f : Book -> T) u : preserves (keeps f) (save u).
Proof. unfold save. preserves_steps. apply BookDB_update_keeps. Qed.

Lemma store_key_keeps_key ol u : preserves keeps_key (store_key ol u).
Proof.
  intros s Hk. unfold store_key, bind, get_book; simpl.
  rewrite Hk, andb_false_r. reflexivity.
Qed.

Ltac unfold_phases :=
  unfold enrich_needed, fetch_records, adapter, sleep, apply_cover, apply_summary,
    apply_page_count, apply_publisher, save, BookDB_update.

Lemma enrich_needed_keeps_cover_url ns np npub :
  preserves (keeps cover_url) (enrich_needed false ns np npub).
Proof. unfold_phases; unfold store_key; preserves_steps. Qed.

Lemma enrich_needed_keeps_summary nc np npub :
  preserves (keeps summary) (enrich_needed nc false np npub).
Proof. unfold_phases; unfold store_key; preserves_steps. Qed.

Lemma enrich_needed_keeps_page_count nc ns npub :
  preserves (keeps page_count) (enrich_needed nc ns false npub).
Proof. unfold_phases; unfold store_key; preserves_steps. Qed.

Lemma enrich_needed_keeps_publisher nc ns np :
  preserves (keeps publisher) (enrich_needed nc ns np false).
Proof. unfold_phases; unfold store_key; preserves_steps. Qed.

Lemma enrich_needed_keeps_key nc ns np npub :
  preserves keeps_key (enrich_needed nc ns np npub).
Proof. unfold_phases; preserves_steps_using ltac:(apply store_key_keeps_key). Qed.

(** The run of [enrich_book] from [s], past the reading of the book. *)
Lemma final_enrich_book force s :
  final (enrich_book force s) =
  final ((if negb (needs force (cover_url (cur s)) || needs force (summary (cur s))
                   || needs force (page_count (cur s)) || needs force (publisher (cur s)))
          then ret false
          else enrich_needed (needs force (cover_url (cur s))) (needs force (summary (cur s)))
                 (needs force (page_count (cur s))) (needs force (publisher (cur s)))) s).
Proof. reflexivity. Qed.

Lemma value_enrich_book force s :
  value (enrich_book force s) =
  value ((if negb (needs force (cover_url (cur s)) || needs force (summary (cur s))
                   || needs force (page_count (cur s)) || needs force (publisher (cur s)))
          then ret false
          else enrich_needed (needs force (cover_url (cur s))) (needs force (summary (cur s)))
                 (needs force (page_count (cur s))) (needs force (publisher (cur s)))) s).
Proof. reflexivity. Qed.

Lemma events_enrich_book force s :
  events (enrich_book force s) =
  events ((if negb (needs force (cover_url (cur s)) || needs force (summary (cur s))
                    || needs force (page_count (cur s)) || needs force (publisher (cur s)))
           then ret false
           else enrich_needed (needs force (cover_url (cur s))) (needs force (summary (cur s)))
                  (needs force (page_count (cur s))) (needs force (publisher (cur s)))) s).
Proof. reflexivity. Qed.

Lemma needs_filled v : truthy v = true -> needs false v = false.
Proof. intros H. unfold needs. rewrite H. reflexivity. Qed.

(** C1, as amended: without force, an enrichable field that holds a value
    Python takes for true (not [None], not the empty string, not [0]) has
    the same value when [enrich_book] is left, by return or by exception;
    with or without force, an [openlibrary_key] that holds such a value is
    unchanged. *)
Theorem enrich_book_fills_gaps_only (force : bool) (s : state) :
  (force = false ->
   (truthy (cover_url (cur s)) = true ->
    cover_url (cur (final (enrich_book force s))) = cover_url (cur s)) /\
   (truthy (summary (cur s)) = true ->
    summary (cur (final (enrich_book force s))) = summary (cur s)) /\
   (truthy (page_count (cur s)) = true ->
    page_count (cur (final (enrich_book force s))) = page_count (cur s)) /\
   (truthy (publisher (cur s)) = true ->
    publisher (cur (final (enrich_book force s))) = publisher (cur s))) /\
  (truthy (openlibrary_key (cur s)) = true ->
   openlibrary_key (cur (final (enrich_book force s))) = openlibrary_key (cur s)).
Proof.
  rewrite final_enrich_book. split.
  - intros ->. repeat split; intros H; rewrite (needs_filled _ H);
      match goal with |- context [if ?c then _ else _] => destruct c end;
      try reflexivity.
    + apply enrich_needed_keeps_cover_url.
    + apply enrich_needed_keeps_summary.
    + apply enrich_needed_keeps_page_count.
    + apply enrich_needed_keeps_publisher.
  - intros H.
    match goal with |- context [if ?c then _ else _] => destruct c end;
      [reflexivity | ].
    apply enrich_needed_keeps_key, H.
Qed.

(** C4, as amended: when the four enrichable fields all hold a value Python
    takes for true and force is off, [enrich_book] returns [False] with no
    adapter call, no delay and no write, and leaves the book and the books
    table as they were. *)
Theorem enrich_book_complete_is_noop (s : state) :
  truthy (cover_url (cur s)) = true ->
  truthy (summary (cur s)) = true ->
  truthy (page_count (cur s)) = true ->
  truthy (publisher (cur s)) = true ->
  value (enrich_book false s) = inr false /\
  final (enrich_book false s) = s /\
  events (enrich_book false s) = [].
Proof.
  intros Hc Hs Hp Hpub.
  rewrite value_enrich_book, final_enrich_book, events_enrich_book.
  rewrite !needs_filled by assumption. simpl. auto.
Qed.

(** ** The rate delay *)

Lemma paced_app tr1 tr2 : paced tr1 -> paced tr2 -> paced (tr1 ++ tr2).
Proof. induction 1; simpl; intros; auto using paced. Qed.

Lemma raised_at_app e tr1 tr2 : paced tr1 -> raised_at e tr2 -> raised_at e (tr1 ++ tr2).
Proof. induction 1; simpl; intros; auto using raised_at. Qed.

Lemma governed_bind {A B} (m : M A) (k : A -> M B) :
  governed m -> (forall x, governed (k x)) -> governed (bind m k).
Proof.
  intros Hm Hk s. specialize (Hm s). unfold bind.
  destruct (value (m s)) as [e | x]; simpl; [exact Hm | ].
  specialize (Hk x (final (m s))).
  destruct (value (k x (final (m s)))) as [e | y].
  - destruct Hk; [left; apply paced_app | right; apply raised_at_app]; assumption.
  - apply paced_app; assumption.
Qed.

Lemma governed_silent {A} (m : M A) : (forall s, events (m s) = []) -> governed m.
Proof.
  intros H s. rewrite H. destruct (value (m s)); [left | ]; constructor.
Qed.

Lemma governed_update b : governed (emit (EvUpdate b)).
Proof. intros s. simpl. repeat constructor. Qed.

(** A call followed by the delay, as lines 178-179, 184-185, 199-200 and
    205-206 have it. *)
Lemma governed_call_then_sleep {A} (c : call) (k : json -> M A) :
  (forall r, governed (k r)) ->
  governed (let* r := adapter c in run sleep REQUEST_DELAY then k r).
Proof.
  intros Hk s. unfold adapter, sleep, bind, emit, lift; simpl.
  destruct (run_adapter c) as [e | v]; simpl.
  - right. constructor.
  - specialize (Hk v s).
    destruct (value (k v s)); [destruct Hk; [left | right] | ]; constructor; assumption.
Qed.

Ltac governed_steps :=
  repeat first
    [ solve [ apply governed_silent; intros; reflexivity ]
    | solve [ apply governed_update ]
    | apply governed_call_then_sleep; intros
    | apply governed_bind; [ | intros ]
    | match goal with
      | |- governed (if ?c then _ else _) => destruct c
      | |- governed (match ?x with _ => _ end) => destruct x
      end ].

Lemma fetch_records_governed nc ns : governed (fetch_records nc ns).
Proof. unfold fetch_records. governed_steps. Qed.

Lemma enrich_book_governed force : governed (enrich_book force).
Proof.
  unfold enrich_book, enrich_needed.
  apply governed_bind; [apply governed_silent; reflexivity | intros book].
  match goal with |- governed (if ?c then _ else _) => destruct c end.
  - apply governed_silent. reflexivity.
  - apply governed_bind; [apply fetch_records_governed | intros [[ol wk] g]].
    unfold apply_cover, apply_summary, apply_page_count, apply_publisher, store_key,
      save, BookDB_update.
    governed_steps.
Qed.

Lemma paced_follow tr :
  paced tr ->
  forall (i : nat) c r, tr !! i = Some (EvCall c r) ->
    (exists v, r = inr v) /\ tr !! S i = Some (EvSleep REQUEST_DELAY).
Proof.
  induction 1 as [ | c0 v tr Htr IH | b tr Htr IH]; intros i c r Hi.
  - discriminate.
  - destruct i as [ | [ | i]]; simpl in *.
    + injection Hi as <- <-. eauto.
    + discriminate.
    + apply IH in Hi. exact Hi.
  - destruct i as [ | i]; simpl in *; [discriminate | ].
    apply IH in Hi. exact Hi.
Qed.

Lemma raised_follow e tr :
  raised_at e tr ->
  forall (i : nat) c r, tr !! i = Some (EvCall c r) ->
    match r with
    | inr _ => tr !! S i = Some (EvSleep REQUEST_DELAY)
    | inl e' => e' = e /\ S i = length tr
    end.
Proof.
  induction 1 as [c0 | c0 v tr Htr IH | b tr Htr IH]; intros i c r Hi.
  - destruct i as [ | i]; simpl in *; [ | discriminate].
    injection Hi as <- <-. auto.
  - destruct i as [ | [ | i]]; simpl in *.
    + injection Hi as <- <-. reflexivity.
    + discriminate.
    + apply IH in Hi. destruct r; [ | exact Hi].
      destruct Hi as [-> Hi]. split; [reflexivity | ]. simpl. lia.
  - destruct i as [ | i]; simpl in *; [discriminate | ].
    apply IH in Hi. destruct r; [ | exact Hi].
    destruct Hi as [-> Hi]. split; [reflexivity | ]. simpl. lia.
Qed.

Lemma paced_slept tr : paced tr -> slept tr = Z.of_nat (calls tr) * REQUEST_DELAY.
Proof. induction 1; simpl calls; simpl slept; unfold REQUEST_DELAY in *; lia. Qed.

Lemma raised_slept e tr :
  raised_at e tr -> slept tr = (Z.of_nat (calls tr) - 1) * REQUEST_DELAY.
Proof. induction 1; simpl calls; simpl slept; unfold REQUEST_DELAY in *; lia. Qed.

(** C8: in every run of [enrich_book], an adapter call that returns, a
    record or [None], is followed at once by [time.sleep(REQUEST_DELAY)];
    an adapter call that lets an exception through ends the run.  So a run
    with N adapter calls sleeps at least (N-1) times the delay. *)
Theorem delay_after_every_adapter_call (force : bool) (s : state) :
  (forall (i : nat) c r,
     events (enrich_book force s) !! i = Some (EvCall c r) ->
     match r with
     | inr _ => events (enrich_book force s) !! S i = Some (EvSleep REQUEST_DELAY)
     | inl e =>
         value (enrich_book force s) = inl e /\
         S i = length (events (enrich_book force s))
     end) /\
  (Z.of_nat (calls (events (enrich_book force s))) - 1) * REQUEST_DELAY
    <= slept (events (enrich_book force s)).
Proof.
  pose proof (enrich_book_governed force s) as H.
  destruct (value (enrich_book force s)) as [e | b] eqn:Hv.
  - destruct H as [H | H].
    + split.
      * intros i c r Hi. destruct (paced_follow _ H i c r Hi) as [[v ->] Hs]. exact Hs.
      * rewrite (paced_slept _ H). unfold REQUEST_DELAY. lia.
    + split.
      * intros i c r Hi. pose proof (raised_follow _ _ H i c r Hi) as Hr.
        destruct r; [ | exact Hr]. destruct Hr as [-> Hr]. auto.
      * rewrite (raised_slept _ _ H). lia.
  - split.
    + intros i c r Hi. destruct (paced_follow _ H i c r Hi) as [[v ->] Hs]. exact Hs.
    + rewrite (paced_slept _ H). unfold REQUEST_DELAY. lia.
Qed.

(** ** The adapters *)


(** ** Runs that return *)

Lemma outcome_eta {A} (o : outcome A) : o = mkOutcome (value o) (final o) (events o).
Proof. destruct o. reflexivity. Qed.

Lemma returns_of_value {A} (m : M A) s x :
  value (m s) = inr x -> returns m s x (final (m s)) (events (m s)).
Proof. intros H. unfold returns. rewrite <- H. apply outcome_eta. Qed.

Lemma returns_bind_inv {A B} (m : M A) (k : A -> M B) s y s2 tr :
  returns (bind m k) s y s2 tr ->
  exists x s1 tr1 tr2,
    returns m s x s1 tr1 /\ returns (k x) s1 y s2 tr2 /\ tr = tr1 ++ tr2.
Proof.
  unfold returns, bind. intros H.
  destruct (m s) as [[e | x] s1 tr1] eqn:Hm; simpl in H; [discriminate | ].
  destruct (k x s1) as [v s2' tr2] eqn:Hk; simpl in H.
  injection H as -> -> <-. exists x, s1, tr1, tr2. auto.
Qed.

Lemma returns_ret_inv {A} (x y : A) s s' tr :
  returns (ret x) s y s' tr -> y = x /\ s' = s /\ tr = [].
Proof. unfold returns, ret. intros H. injection H as -> -> ->. auto. Qed.

Lemma returns_lift_inv {A} (r : res A) (y : A) s s' tr :
  returns (lift r) s y s' tr -> r = inr y /\ s' = s /\ tr = [].
Proof. unfold returns, lift. intros H. injection H as -> -> ->. auto. Qed.

Lemma returns_modify_book_inv f y s s' tr :
  returns (modify_book f) s y s' tr -> s' = mkState (f (cur s)) (db s) /\ tr = [].
Proof. unfold returns, modify_book. intros H. inversion H. auto. Qed.

Lemma returns_emit_inv e y s s' tr :
  returns (emit e) s y s' tr -> s' = s /\ tr = [e].
Proof. unfold returns, emit. intros H. inversion H. auto. Qed.

Lemma returns_get_book_inv y s s' tr :
  returns get_book s y s' tr -> y = cur s /\ s' = s /\ tr = [].
Proof. unfold returns, get_book. intros H. inversion H. auto. Qed.

Lemma returns_modify_db_inv f y s s' tr :
  returns (modify_db f) s y s' tr -> s' = mkState (cur s) (f (db s)) /\ tr = [].
Proof. unfold returns, modify_db. intros H. inversion H. auto. Qed.

Lemma returns_raise_inv {A} e (y : A) s s' tr : returns (raise e) s y s' tr -> False.
Proof. unfold returns, raise. intros H. discriminate. Qed.

(** A run that returns, taken apart along its steps. *)
Ltac returns_inv :=
  repeat match goal with
    | H : returns (bind _ _) _ _ _ _ |- _ =>
        apply returns_bind_inv in H;
        let x := fresh "x" in let s1 := fresh "s" in
        let tr1 := fresh "tr" in let tr2 := fresh "tr" in
        let H1 := fresh "Hrun" in let H2 := fresh "Hrun" in let Htr := fresh "Htr" in
        destruct H as (x & s1 & tr1 & tr2 & H1 & H2 & Htr)
    | H : returns (ret _) _ _ _ _ |- _ =>
        apply returns_ret_inv in H; destruct H as (? & ? & ?)
    | H : returns (lift _) _ _ _ _ |- _ =>
        apply returns_lift_inv in H; destruct H as (? & ? & ?)
    | H : returns (emit _) _ _ _ _ |- _ =>
        apply returns_emit_inv in H; destruct H as (? & ?)
    | H : returns get_book _ _ _ _ |- _ =>
        apply returns_get_book_inv in H; destruct H as (? & ? & ?)
    | H : returns (modify_book _) _ _ _ _ |- _ =>
        apply returns_modify_book_inv in H; destruct H as (? & ?)
    | H : returns (modify_db _) _ _ _ _ |- _ =>
        apply returns_modify_db_inv in H; destruct H as (? & ?)
    | H : returns (raise _) _ _ _ _ |- _ =>
        apply returns_raise_inv in H; destruct H
    end;
  subst.

Lemma returns_final {A} (m : M A) s x s' tr : returns m s x s' tr -> final (m s) = s'.
Proof. unfold returns. intros ->. reflexivity. Qed.

Lemma returns_events {A} (m : M A) s x s' tr : returns m s x s' tr -> events (m s) = tr.
Proof. unfold returns. intros ->. reflexivity. Qed.

Lemma returns_value {A} (m : M A) s x s' tr : returns m s x s' tr -> value (m s) = inr x.
Proof. unfold returns. intros ->. reflexivity. Qed.

Lemma returns_preserves {A} R (m : M A) s x s' tr :
  preserves R m -> returns m s x s' tr -> R s s'.
Proof. intros Hp Hr. rewrite <- (returns_final _ _ _ _ _ Hr). apply Hp. Qed.

(** What each step of the fusion does when it returns. *)
Lemma apply_cover_returns nc ol g u s u' s' tr :
  returns (apply_cover nc ol g u) s u' s' tr ->
  tr = [] /\
  if nc then
    exists v, select_cover ol g = inr v /\
      if truthy v then s' = writes with_cover_url s v /\ u' = true
      else s' = s /\ u' = u
  else s' = s /\ u' = u.
Proof.
  unfold apply_cover, returns, bind, lift, modify_book, ret, writes.
  destruct nc; simpl.
  - destruct (select_cover ol g) as [e | v]; simpl; [discriminate | ].
    destruct (truthy v) eqn:Hv; simpl; intros H; injection H as <- <- <-;
      (split; [reflexivity | ]); exists v; rewrite Hv; auto.
  - intros H; injection H as <- <- <-. auto.
Qed.

Lemma apply_summary_returns ns wk g u s u' s' tr :
  returns (apply_summary ns wk g u) s u' s' tr ->
  tr = [] /\
  if ns then
    exists v, select_summary wk g = inr v /\
      if truthy v then s' = writes with_summary s v /\ u' = true
      else s' = s /\ u' = u
  else s' = s /\ u' = u.
Proof.
  unfold apply_summary, returns, bind, lift, modify_book, ret, writes.
  destruct ns; simpl.
  - destruct (select_summary wk g) as [e | v]; simpl; [discriminate | ].
    destruct (truthy v) eqn:Hv; simpl.
    + destruct (py_len_check v); simpl; [discriminate | ].
      intros H; injection H as <- <- <-.
      split; [reflexivity | ]. exists v. rewrite Hv. auto.
    + intros H; injection H as <- <- <-.
      split; [reflexivity | ]. exists v. rewrite Hv. auto.
  - intros H; injection H as <- <- <-. auto.
Qed.

Lemma apply_page_count_returns np ol g u s u' s' tr :
  returns (apply_page_count np ol g u) s u' s' tr ->
  tr = [] /\
  if np then
    exists v, select_page_count ol g = inr v /\
      if truthy v then s' = writes with_page_count s v /\ u' = true
      else s' = s /\ u' = u
  else s' = s /\ u' = u.
Proof.
  unfold apply_page_count, returns, bind, lift, modify_book, ret, writes.
  destruct np; simpl.
  - destruct (select_page_count ol g) as [e | v]; simpl; [discriminate | ].
    destruct (truthy v) eqn:Hv; simpl; intros H; injection H as <- <- <-;
      (split; [reflexivity | ]); exists v; rewrite Hv; auto.
  - intros H; injection H as <- <- <-. auto.
Qed.

Lemma apply_publisher_returns npub ol g u s u' s' tr :
  returns (apply_publisher npub ol g u) s u' s' tr ->
  tr = [] /\
  if npub then
    exists v, select_publisher ol g = inr v /\
      if truthy v then s' = writes with_publisher s v /\ u' = true
      else s' = s /\ u' = u
  else s' = s /\ u' = u.
Proof.
  unfold apply_publisher, returns, bind, lift, modify_book, ret, writes.
  destruct npub; simpl.
  - destruct (select_publisher ol g) as [e | v]; simpl; [discriminate | ].
    destruct (truthy v) eqn:Hv; simpl; intros H; injection H as <- <- <-;
      (split; [reflexivity | ]); exists v; rewrite Hv; auto.
  - intros H; injection H as <- <- <-. auto.
Qed.

Lemma store_key_returns ol u s u' s' tr :
  returns (store_key ol u) s u' s' tr ->
  tr = [] /\
  if truthy ol && negb (truthy (openlibrary_key (cur s))) then
    exists v, py_get ol "key" JNull = inr v /\
      if truthy v then s' = writes with_openlibrary_key s v /\ u' = true
      else s' = s /\ u' = u
  else s' = s /\ u' = u.
Proof.
  unfold store_key, returns, bind, get_book, lift, modify_book, ret, writes. simpl.
  destruct (truthy ol && negb (truthy (openlibrary_key (cur s)))); simpl.
  - destruct (py_get ol "key" JNull) as [e | v]; simpl; [discriminate | ].
    destruct (truthy v) eqn:Hv; simpl; intros H; injection H as <- <- <-;
      (split; [reflexivity | ]); exists v; rewrite Hv; auto.
  - intros H; injection H as <- <- <-. auto.
Qed.

Lemma BookDB_update_returns book s y s' tr :
  returns (BookDB_update book) s y s' tr ->
  s' = mkState (cur s) (updated_rows book (db s)) /\ tr = [EvUpdate book].
Proof.
  unfold BookDB_update. intros H.
  destruct (negb (truthy_oint (book_id book))); returns_inv.
  auto.
Qed.

Lemma save_returns u s b s' tr :
  returns (save u) s b s' tr ->
  b = u /\
  if u then s' = mkState (cur s) (updated_rows (cur s) (db s)) /\ tr = [EvUpdate (cur s)]
  else s' = s /\ tr = [].
Proof.
  unfold save. intros H. destruct u; returns_inv.
  - match goal with
    | H : returns (BookDB_update _) _ _ _ _ |- _ =>
        apply BookDB_update_returns in H; destruct H as [-> ->]
    end.
    auto.
  - auto.
Qed.

Lemma fetch_records_returns nc ns s r s' tr :
  returns (fetch_records nc ns) s r s' tr -> s' = s.
Proof.
  intros H. symmetry. apply (returns_preserves eq _ _ _ _ _ (fetch_records_state nc ns) H).
Qed.

(** The steps of a run of [enrich_book] that returns. *)
Lemma enrich_book_returns force s b s' tr :
  returns (enrich_book force) s b s' tr ->
  let nc := needs force (cover_url (cur s)) in
  let ns := needs force (summary (cur s)) in
  let np := needs force (page_count (cur s)) in
  let npub := needs force (publisher (cur s)) in
  (nc || ns || np || npub = false /\ b = false /\ s' = s /\ tr = []) \/
  (nc || ns || np || npub = true /\
   exists ol wk g tr0 u1 s1 u2 s2 u3 s3 u4 s4 u5 s5 trs,
     returns (fetch_records nc ns) s (ol, wk, g) s tr0 /\
     returns (apply_cover nc ol g false) s u1 s1 [] /\
     returns (apply_summary ns wk g u1) s1 u2 s2 [] /\
     returns (apply_page_count np ol g u2) s2 u3 s3 [] /\
     returns (apply_publisher npub ol g u3) s3 u4 s4 [] /\
     returns (store_key ol u4) s4 u5 s5 [] /\
     returns (save u5) s5 b s' trs /\
     tr = tr0 ++ trs).
Proof.
  intros H nc ns np npub. unfold enrich_book in H.
  apply returns_bind_inv in H as (book & s0 & ta & tb & Hget & H & ->).
  apply returns_get_book_inv in Hget as (-> & -> & ->).
  fold nc ns np npub in H.
  destruct (nc || ns || np || npub) eqn:Hn; simpl in H.
  - right. split; [reflexivity | ].
    unfold enrich_needed in H.
    apply returns_bind_inv in H as ([[ol wk] g] & s0 & tr0 & tc & Hfetch & H & ->).
    pose proof (fetch_records_returns _ _ _ _ _ _ Hfetch) as ->.
    apply returns_bind_inv in H as (u1 & s1 & t1 & td & H1 & H & ->).
    apply returns_bind_inv in H as (u2 & s2 & t2 & te & H2 & H & ->).
    apply returns_bind_inv in H as (u3 & s3 & t3 & tf & H3 & H & ->).
    apply returns_bind_inv in H as (u4 & s4 & t4 & tg & H4 & H & ->).
    apply returns_bind_inv in H as (u5 & s5 & t5 & trs & H5 & H & ->).
    pose proof (apply_cover_returns _ _ _ _ _ _ _ _ H1) as [-> _].
    pose proof (apply_summary_returns _ _ _ _ _ _ _ _ H2) as [-> _].
    pose proof (apply_page_count_returns _ _ _ _ _ _ _ _ H3) as [-> _].
    pose proof (apply_publisher_returns _ _ _ _ _ _ _ _ H4) as [-> _].
    pose proof (store_key_returns _ _ _ _ _ _ H5) as [-> _].
    exists ol, wk, g, tr0, u1, s1, u2, s2, u3, s3, u4, s4, u5, s5, trs.
    auto 10.
  - left. apply returns_ret_inv in H as (-> & -> & ->). auto.
Qed.

(** What each step leaves alone. *)
Ltac frame_from lem :=
  let H := fresh in
  intros H; apply lem in H; destruct H as [_ H];
  repeat match type of H with
    | if ?c then _ else _ => destruct c
    | exists _, _ => destruct H as (? & ? & H)
    | _ /\ _ => destruct H as [-> ->]
    end;
  auto.

Lemma apply_cover_frame nc ol g u s u' s' tr :
  returns (apply_cover nc ol g u) s u' s' tr ->
  summary (cur s') = summary (cur s) /\ page_count (cur s') = page_count (cur s) /\
  publisher (cur s') = publisher (cur s) /\
  openlibrary_key (cur s') = openlibrary_key (cur s) /\ db s' = db s.
Proof. frame_from apply_cover_returns. Qed.

Lemma apply_summary_frame ns wk g u s u' s' tr :
  returns (apply_summary ns wk g u) s u' s' tr ->
  cover_url (cur s') = cover_url (cur s) /\ page_count (cur s') = page_count (cur s) /\
  publisher (cur s') = publisher (cur s) /\
  openlibrary_key (cur s') = openlibrary_key (cur s) /\ db s' = db s.
Proof. frame_from apply_summary_returns. Qed.

Lemma apply_page_count_frame np ol g u s u' s' tr :
  returns (apply_page_count np ol g u) s u' s' tr ->
  cover_url (cur s') = cover_url (cur s) /\ summary (cur s') = summary (cur s) /\
  publisher (cur s') = publisher (cur s) /\
  openlibrary_key (cur s') = openlibrary_key (cur s) /\ db s' = db s.
Proof. frame_from apply_page_count_returns. Qed.

Lemma apply_publisher_frame npub ol g u s u' s' tr :
  returns (apply_publisher npub ol g u) s u' s' tr ->
  cover_url (cur s') = cover_url (cur s) /\ summary (cur s') = summary (cur s) /\
  page_count (cur s') = page_count (cur s) /\
  openlibrary_key (cur s') = openlibrary_key (cur s) /\ db s' = db s.
Proof. frame_from apply_publisher_returns. Qed.

Lemma store_key_frame ol u s u' s' tr :
  returns (store_key ol u) s u' s' tr ->
  cover_url (cur s') = cover_url (cur s) /\ summary (cur s') = summary (cur s) /\
  page_count (cur s') = page_count (cur s) /\
  publisher (cur s') = publisher (cur s) /\ db s' = db s.
Proof. frame_from store_key_returns. Qed.

Lemma save_frame u s b s' tr : returns (save u) s b s' tr -> cur s' = cur s.
Proof.
  intros H. apply save_returns in H. destruct H as [_ H].
  destruct u; destruct H as [-> _]; reflexivity.
Qed.

(** ** Precedence of the sources *)

Lemma py_getitem_of_get record field v :
  py_get record field JNull = inr v -> truthy v = true ->
  py_getitem_str record field = inr v.
Proof.
  destruct record as [ | | | | | kvs]; simpl; try discriminate.
  destruct (dict_lookup field kvs); unfold rret; intros H Hv.
  - exact H.
  - injection H as <-. discriminate.
Qed.

Lemma select_page_count_primary ol g v :
  supplies ol "number_of_pages" v -> select_page_count ol g = inr v.
Proof.
  intros (Hol & Hget & Hv). unfold select_page_count.
  rewrite Hol, Hget. simpl. rewrite Hv. apply py_getitem_of_get; assumption.
Qed.

Lemma select_page_count_secondary ol g v :
  supplies_none ol "number_of_pages" -> supplies g "pageCount" v ->
  select_page_count ol g = inr v.
Proof.
  intros Hnone (Hg & Hget & Hv). unfold select_page_count.
  destruct Hnone as [Hol | (v0 & Hget0 & Hv0)].
  - rewrite Hol. simpl. rewrite Hg, Hget. simpl. rewrite Hv.
    apply py_getitem_of_get; assumption.
  - destruct (truthy ol); simpl.
    + rewrite Hget0. simpl. rewrite Hv0, Hg, Hget. simpl. rewrite Hv.
      apply py_getitem_of_get; assumption.
    + rewrite Hg, Hget. simpl. rewrite Hv. apply py_getitem_of_get; assumption.
Qed.

(** C3: in a run of [enrich_book] that returns and needs the page count,
    with the records [ol_data] and [google_data] as fetched: when the
    Primary record supplies a page count it is the value of the book's
    [page_count] at the end, whatever the Secondary record holds; the
    Secondary's page count is the value at the end when the Primary record
    supplies none. *)
Theorem page_count_precedence (force : bool) (s : state) (b : bool) (ol wk g : json) :
  value (enrich_book force s) = inr b ->
  needs force (page_count (cur s)) = true ->
  value (fetch_records (needs force (cover_url (cur s))) (needs force (summary (cur s))) s)
    = inr (ol, wk, g) ->
  (forall v, supplies ol "number_of_pages" v ->
     page_count (cur (final (enrich_book force s))) = v) /\
  (forall v, supplies_none ol "number_of_pages" -> supplies g "pageCount" v ->
     page_count (cur (final (enrich_book force s))) = v).
Proof.
  intros Hret Hnp Hrec.
  apply returns_of_value, enrich_book_returns in Hret.
  destruct Hret as [(Hn & _) | (_ & Hrun)].
  { rewrite Hnp in Hn. rewrite !orb_true_r in Hn. simpl in Hn. discriminate. }
  destruct Hrun as (ol' & wk' & g' & tr0 & u1 & s1 & u2 & s2 & u3 & s3 & u4 & s4 & u5 & s5
                    & trs & Hf & H1 & H2 & H3 & H4 & H5 & H6 & _).
  rewrite (returns_value _ _ _ _ _ Hf) in Hrec. injection Hrec as -> -> ->.
  rewrite (save_frame _ _ _ _ _ H6).
  destruct (store_key_frame _ _ _ _ _ _ H5) as (_ & _ & -> & _).
  destruct (apply_publisher_frame _ _ _ _ _ _ _ _ H4) as (_ & _ & -> & _).
  apply apply_page_count_returns in H3. destruct H3 as [_ H3].
  rewrite Hnp in H3. destruct H3 as (v0 & Hsel & H3).
  assert (forall v, select_page_count ol g = inr v -> truthy v = true ->
                    page_count (cur s3) = v) as Hwritten.
  { intros v Hv Ht. rewrite Hv in Hsel. injection Hsel as <-.
    rewrite Ht in H3. destruct H3 as [-> _]. reflexivity. }
  split.
  - intros v Hv. apply Hwritten; [apply select_page_count_primary, Hv | apply Hv].
  - intros v Hnone Hv.
    apply Hwritten; [apply select_page_count_secondary; assumption | apply Hv].
Qed.

(** ** Force mode *)

Lemma events_bind_prefix {A B} (m : M A) (k : A -> M B) s :
  exists rest, events (bind m k s) = events (m s) ++ rest.
Proof.
  unfold bind. destruct (value (m s)); simpl.
  - exists []. rewrite app_nil_r. reflexivity.
  - eauto.
Qed.

Lemma events_call_first {A} c (k : json -> M A) s :
  exists rest, events (bind (adapter c) k s) = EvCall c (run_adapter c) :: rest.
Proof.
  destruct (events_bind_prefix (adapter c) k s) as [rest ->].
  unfold adapter. destruct (events_bind_prefix (emit (EvCall c (run_adapter c)))
                              (fun _ => lift (run_adapter c)) s) as [rest' ->].
  simpl. eauto.
Qed.



(** ** A book with an ISBN only *)

Lemma returns_call_sleep_inv c y s s' tr :
  returns (let* r := adapter c in run sleep REQUEST_DELAY then ret r) s y s' tr ->
  run_adapter c = inr y /\ s' = s /\
  tr = [EvCall c (run_adapter c); EvSleep REQUEST_DELAY].
Proof. unfold adapter, sleep. intros H. returns_inv. auto. Qed.

Lemma fetch_records_by_isbn nc s i ol wkey wk r s' tr :
  py_or (isbn13 (cur s)) (isbn (cur s)) = Some i -> truthy_str i = true ->
  run_adapter (CallOLIsbn i) = inr ol -> truthy ol = true ->
  works_key_of ol = inr wkey -> truthy wkey = true ->
  run_adapter (CallOLWorks wkey) = inr wk ->
  returns (fetch_records nc true) s r s' tr ->
  exists g, r = (ol, wk, g).
Proof.
  intros Hid Hi Hol Htol Hkey Htkey Hwk H.
  unfold fetch_records in H.
  apply returns_bind_inv in H as (book & s0 & ta & tb & Hget & H & ->).
  apply returns_get_book_inv in Hget as (-> & -> & ->).
  rewrite Hid in H. cbn [truthy_ostr] in H. rewrite Hi in H.
  change (default ""%string (Some i)) with i in H.
  apply returns_bind_inv in H as (ol1 & s1 & tc & td & H1 & H & ->).
  apply returns_call_sleep_inv in H1 as (H1 & -> & ->).
  rewrite Hol in H1. injection H1 as <-.
  rewrite Htol in H. cbn [negb andb] in H.
  apply returns_bind_inv in H as (ol2 & s2 & tg & th & H2 & H & ->).
  apply returns_ret_inv in H2 as (-> & -> & ->).
  rewrite Htol in H.
  apply returns_bind_inv in H as (wk1 & s3 & ti & tj & H3 & H & ->).
  apply returns_bind_inv in H3 as (wkey1 & s3' & tk & tl & H3 & H3' & ->).
  apply returns_lift_inv in H3 as (H3 & -> & ->).
  rewrite Hkey in H3. injection H3 as <-.
  rewrite Htkey in H3'. cbn [andb] in H3'.
  apply returns_call_sleep_inv in H3' as (H3 & -> & ->).
  rewrite Hwk in H3. injection H3 as <-.
  apply returns_bind_inv in H as (g & s4 & tp & tq & H4 & H & ->).
  apply returns_ret_inv in H as (-> & -> & ->).
  eauto.
Qed.

Lemma dict_lookup_nonempty k kvs v : dict_lookup k kvs = Some v -> truthy (JObj kvs) = true.
Proof. destruct kvs; [discriminate | reflexivity]. Qed.

(** C5, as amended: for a book with an ISBN13 and no enrichable field nor
    key, when the ISBN lookup answers with a record whose cover ids are
    [[n]] and whose key is [k], and the works lookup for the work key of
    that record answers with a record whose description is the object
    [{value: x}], a run of [enrich_book] that returns leaves [summary = x],
    [cover_url] the cover template at [n], and [openlibrary_key = k].  (The
    description of the ISBN record itself is not read.) *)
Theorem isbn_only_book_is_fused (s : state) (i x : string) (n : Z) (k wkey : json)
    (kvs wkvs : list (string * json)) (b : bool) :
  isbn13 (cur s) = Some i -> truthy_str i = true ->
  cover_url (cur s) = JNull -> summary (cur s) = JNull ->
  page_count (cur s) = JNull -> publisher (cur s) = JNull ->
  openlibrary_key (cur s) = JNull ->
  w (mkRequest (OPENLIBRARY_ISBN_API i) []) = Responds (mkResponse 200 (Some (JObj kvs))) ->
  dict_lookup "covers" kvs = Some (JArr [JNum n]) ->
  dict_lookup "key" kvs = Some k -> truthy k = true ->
  works_key_of (JObj kvs) = inr wkey -> truthy wkey = true ->
  w (mkRequest (OPENLIBRARY_WORKS_API container_str wkey) [])
    = Responds (mkResponse 200 (Some (JObj wkvs))) ->
  dict_lookup "description" wkvs = Some (JObj [("value"%string, JStr x)]) ->
  truthy_str x = true ->
  value (enrich_book false s) = inr b ->
  summary (cur (final (enrich_book false s))) = JStr x /\
  cover_url (cur (final (enrich_book false s)))
    = JStr (OPENLIBRARY_COVER_URL container_str (JNum n)) /\
  openlibrary_key (cur (final (enrich_book false s))) = k.
Proof.
  intros Hisbn Hi Hc Hs Hp Hpub Hk Hw Hcov Hkey Htk Hwkey Htwkey Hww Hdesc Hx Hret.
  apply returns_of_value, enrich_book_returns in Hret.
  rewrite Hc, Hs, Hp, Hpub in Hret. change (needs false JNull) with true in Hret.
  destruct Hret as [(Hn & _) | (_ & Hrun)]; [discriminate | ].
  destruct Hrun as (ol & wk & g & tr0 & u1 & s1 & u2 & s2 & u3 & s3 & u4 & s4 & u5 & s5
                    & trs & Hf & H1 & H2 & H3 & H4 & H5 & H6 & _).
  assert (truthy (JObj kvs) = true) as Htol by (eapply dict_lookup_nonempty; eauto).
  assert (exists g0, (ol, wk, g) = (JObj kvs, JObj wkvs, g0)) as [g0 Hrec].
  { eapply (fetch_records_by_isbn true s i); try eassumption.
    - unfold py_or. rewrite Hisbn. cbn [truthy_ostr]. rewrite Hi. reflexivity.
    - unfold run_adapter, fetch_openlibrary_by_isbn, requests_get. rewrite Hw. reflexivity.
    - unfold run_adapter, fetch_openlibrary_works, requests_get. rewrite Hww. reflexivity. }
  injection Hrec as -> -> <-.
  rewrite (save_frame _ _ _ _ _ H6).
  pose proof (apply_cover_frame _ _ _ _ _ _ _ _ H1) as (_ & _ & _ & Hk1 & _).
  pose proof (apply_summary_frame _ _ _ _ _ _ _ _ H2) as (Hc2 & _ & _ & Hk2 & _).
  pose proof (apply_page_count_frame _ _ _ _ _ _ _ _ H3) as (Hc3 & Hs3 & _ & Hk3 & _).
  pose proof (apply_publisher_frame _ _ _ _ _ _ _ _ H4) as (Hc4 & Hs4 & _ & Hk4 & _).
  pose proof (store_key_frame _ _ _ _ _ _ H5) as (Hc5 & Hs5 & _).
  apply apply_cover_returns in H1. destruct H1 as [_ (v1 & Hsel1 & H1)].
  apply apply_summary_returns in H2. destruct H2 as [_ (v2 & Hsel2 & H2)].
  apply store_key_returns in H5. destruct H5 as [_ H5].
  rewrite Hk4, Hk3, Hk2, Hk1, Hk, Htol in H5. cbn [truthy negb andb] in H5.
  destruct H5 as (v5 & Hsel5 & H5).
  assert (v1 = JStr (OPENLIBRARY_COVER_URL container_str (JNum n))) as ->.
  { unfold select_cover in Hsel1. rewrite Htol in Hsel1.
    unfold extract_cover_url in Hsel1. simpl in Hsel1. rewrite Hcov in Hsel1.
    simpl in Hsel1. injection Hsel1 as <-. reflexivity. }
  assert (v2 = JStr x) as ->.
  { unfold select_summary in Hsel2.
    rewrite (dict_lookup_nonempty _ _ _ Hdesc) in Hsel2.
    unfold extract_description in Hsel2. simpl in Hsel2. rewrite Hdesc in Hsel2.
    simpl in Hsel2. fold (truthy_str x) in Hsel2. rewrite Hx in Hsel2.
    simpl in Hsel2. injection Hsel2 as <-. reflexivity. }
  assert (v5 = k) as ->.
  { simpl in Hsel5. rewrite Hkey in Hsel5. injection Hsel5 as <-. reflexivity. }
  change (truthy (JStr x)) with (truthy_str x) in H2. rewrite Hx in H2.
  simpl in H1. rewrite Htk in H5.
  destruct H1 as [-> _]. destruct H2 as [-> _]. destruct H5 as [-> _].
  repeat split.
  - simpl. rewrite Hs4, Hs3. reflexivity.
  - simpl. rewrite Hc4, Hc3, Hc2. reflexivity.
Qed.

(** ** The key memo *)

(** Whenever a run that returns obtained a Primary record with a key and
    the book had none, the run returns [True], the book holds the key, and
    the last thing the run does is the UPDATE of the book's row. *)
Lemma key_memo_is_saved (force : bool) (s : state) (b : bool) (ol wk g k : json) :
  value (enrich_book force s) = inr b ->
  needs force (cover_url (cur s)) || needs force (summary (cur s))
    || needs force (page_count (cur s)) || needs force (publisher (cur s)) = true ->
  value (fetch_records (needs force (cover_url (cur s))) (needs force (summary (cur s))) s)
    = inr (ol, wk, g) ->
  truthy ol = true ->
  truthy (openlibrary_key (cur s)) = false ->
  py_get ol "key" JNull = inr k -> truthy k = true ->
  b = true /\
  openlibrary_key (cur (final (enrich_book force s))) = k /\
  (exists tr0,
     events (enrich_book force s) = tr0 ++ [EvUpdate (cur (final (enrich_book force s)))]) /\
  db (final (enrich_book force s))
    = updated_rows (cur (final (enrich_book force s))) (db s).
Proof.
  intros Hret Hneed Hrec Hol Hnokey Hkey Htk.
  apply returns_of_value, enrich_book_returns in Hret.
  destruct Hret as [(Hn & _) | (_ & Hrun)]; [congruence | ].
  destruct Hrun as (ol' & wk' & g' & tr0 & u1 & s1 & u2 & s2 & u3 & s3 & u4 & s4 & u5 & s5
                    & trs & Hf & H1 & H2 & H3 & H4 & H5 & H6 & Htr).
  rewrite (returns_value _ _ _ _ _ Hf) in Hrec. injection Hrec as -> -> ->.
  pose proof (apply_cover_frame _ _ _ _ _ _ _ _ H1) as (_ & _ & _ & Hk1 & Hd1).
  pose proof (apply_summary_frame _ _ _ _ _ _ _ _ H2) as (_ & _ & _ & Hk2 & Hd2).
  pose proof (apply_page_count_frame _ _ _ _ _ _ _ _ H3) as (_ & _ & _ & Hk3 & Hd3).
  pose proof (apply_publisher_frame _ _ _ _ _ _ _ _ H4) as (_ & _ & _ & Hk4 & Hd4).
  pose proof (store_key_frame _ _ _ _ _ _ H5) as (_ & _ & _ & _ & Hd5).
  apply store_key_returns in H5. destruct H5 as [_ H5].
  rewrite Hk4, Hk3, Hk2, Hk1, Hnokey, Hol in H5. cbn [negb andb] in H5.
  destruct H5 as (v & Hv & H5). rewrite Hkey in Hv. injection Hv as <-.
  rewrite Htk in H5. destruct H5 as [Hs5 ->].
  apply save_returns in H6. destruct H6 as (-> & Hfin & ->).
  rewrite Htr, Hfin. simpl.
  repeat split.
  - rewrite Hs5. reflexivity.
  - exists tr0. reflexivity.
  - rewrite Hd5, Hd4, Hd3, Hd2, Hd1. reflexivity.
Qed.

(** ** Values Python takes for false *)

#[local] Instance fills_preorder (f : Book -> json) : PreOrder (fills f).
Proof.
  split.
  - intros s. left. reflexivity.
  - intros s1 s2 s3 [H12 | H12] [H23 | H23]; unfold fills in *.
    + left. congruence.
    + right. assumption.
    + right. congruence.
    + right. assumption.
Qed.

Ltac fills_steps :=
  unfold enrich_book; unfold_phases; unfold store_key;
  preserves_steps_using
    ltac:(first [ apply preserves_modify_book | apply preserves_modify_db ];
          intros; hnf; simpl; first [ left; reflexivity | right; assumption ]).

(** X17: a provider value Python takes for false (a page count of [0], an
    empty string) is never written: whatever the run, by return or by exception,
    each enrichable field is left as it was or holds a value Python takes
    for true. *)
Lemma only_truthy_values_are_written (force : bool) (s : state) :
  fills cover_url s (final (enrich_book force s)) /\
  fills summary s (final (enrich_book force s)) /\
  fills page_count s (final (enrich_book force s)) /\
  fills publisher s (final (enrich_book force s)).
Proof.
  repeat split.
  - assert (preserves (fills cover_url) (enrich_book force)) as H by fills_steps. apply H.
  - assert (preserves (fills summary) (enrich_book force)) as H by fills_steps. apply H.
  - assert (preserves (fills page_count) (enrich_book force)) as H by fills_steps. apply H.
  - assert (preserves (fills publisher) (enrich_book force)) as H by fills_steps. apply H.
Qed.

(** Once there is a Primary record, the Secondary record has no part in
    the publisher (lines 254-259): the fallback is per record, not per
    field as for the cover, the summary and the page count. *)
Lemma select_publisher_ignores_secondary (ol g g' : json) :
  truthy ol = true -> select_publisher ol g = select_publisher ol g'.
Proof. intros H. unfold select_publisher. rewrite H. reflexivity. Qed.

(** The summary and the cover fall back per field. *)
Lemma select_summary_falls_back (wk g v : json) :
  truthy wk = true -> extract_description wk "openlibrary" = inr v -> truthy v = false ->
  truthy g = true ->
  select_summary wk g = extract_description g "google".
Proof.
  intros Hwk Hd Hv Hg. unfold select_summary. rewrite Hwk, Hd. simpl. rewrite Hv, Hg.
  reflexivity.
Qed.

Lemma select_cover_falls_back (ol g v : json) :
  truthy ol = true -> extract_cover_url ol "openlibrary" = inr v -> truthy v = false ->
  truthy g = true ->
  select_cover ol g = extract_cover_url g "google".
Proof.
  intros Hol Hd Hv Hg. unfold select_cover. rewrite Hol, Hd. simpl. rewrite Hv, Hg.
  reflexivity.
Qed.

(** * Further properties of the coordinator *)

(** ** What a run leaves alone *)

#[local] Instance keeps_identity_preorder : PreOrder keeps_identity.
Proof.
  split.
  - intros s. repeat split.
  - intros s1 s2 s3 (Ha & Hb & Hc & Hd & He) (Ha' & Hb' & Hc' & Hd' & He').
    unfold keeps_identity. repeat split; congruence.
Qed.

Lemma enrich_book_preserves_identity (force : bool) :
  preserves keeps_identity (enrich_book force).
Proof.
  unfold enrich_book; unfold_phases; unfold store_key.
  preserves_steps_using
    ltac:(first [ apply preserves_modify_book | apply preserves_modify_db ];
          intros; hnf; simpl; auto 10).
Qed.

(** X1: [enrich_book] never changes the id, the ISBNs, the title or the
    author of the book, with or without force, whether it returns or
    raises. *)
Theorem enrich_book_keeps_identity (force : bool) (s : state) :
  keeps_identity s (final (enrich_book force s)).
Proof. apply enrich_book_preserves_identity. Qed.

#[local] Instance keeps_other_rows_preorder : PreOrder keeps_other_rows.
Proof.
  split.
  - intros s. repeat split; auto.
  - intros s1 s2 s3 (Hid & Hrows & Hdom) (Hid' & Hrows' & Hdom').
    unfold keeps_other_rows. repeat split.
    + congruence.
    + intros i Hi. rewrite Hrows' by (rewrite Hid; exact Hi). apply Hrows, Hi.
    + intros Hi. apply Hdom, Hdom', Hi.
    + intros Hi. apply Hdom', Hdom, Hi.
Qed.

Lemma updated_rows_other book (rows : gmap Z Book) (i : Z) :
  i <> default 0 (book_id book) -> updated_rows book rows !! i = rows !! i.
Proof.
  intros Hi. unfold updated_rows.
  destruct (rows !! default 0 (book_id book)); [ | reflexivity].
  apply lookup_insert_ne. congruence.
Qed.

Lemma updated_rows_dom book (rows : gmap Z Book) (i : Z) :
  is_Some (updated_rows book rows !! i) <-> is_Some (rows !! i).
Proof.
  unfold updated_rows.
  destruct (rows !! default 0 (book_id book)) as [old | ] eqn:Hrow; [ | reflexivity].
  destruct (decide (i = default 0 (book_id book))) as [-> | Hne].
  - rewrite lookup_insert_eq, Hrow. split; eauto.
  - rewrite lookup_insert_ne by congruence. reflexivity.
Qed.

Lemma lift_then {A} (r : res unit) (k : M A) s :
  (run lift r then k) s = match r with inl e => mkOutcome (inl e) s [] | inr _ => k s end.
Proof.
  unfold bind, lift. destruct r; cbn [value final events]; [reflexivity | ].
  symmetry. apply outcome_eta.
Qed.

(** [BookDB.update] either raises before the statement is executed, or
    executes it and returns. *)
Lemma BookDB_update_cases book s :
  (exists e, BookDB_update book s = mkOutcome (inl e) s []) \/
  BookDB_update book s
    = mkOutcome (inr tt) (mkState (cur s) (updated_rows book (db s))) [EvUpdate book].
Proof.
  unfold BookDB_update.
  destruct (negb (truthy_oint (book_id book))); [left; eexists; reflexivity | ].
  do 6 (rewrite lift_then;
        match goal with
        | |- context [match ?r with inl _ => _ | inr _ => _ end] =>
            destruct r; [left; eexists; reflexivity | ]
        end).
  right. reflexivity.
Qed.

Lemma final_BookDB_update book s :
  final (BookDB_update book s) = s \/
  final (BookDB_update book s) = mkState (cur s) (updated_rows book (db s)).
Proof. destruct (BookDB_update_cases book s) as [[e ->] | ->]; auto. Qed.

Lemma save_keeps_other_rows u : preserves keeps_other_rows (save u).
Proof.
  intros s. unfold save. destruct u; [ | repeat split; auto].
  unfold bind at 1. cbn [get_book value final events].
  unfold bind at 1.
  destruct (value (BookDB_update (cur s) s)); cbn [value final events ret];
    destruct (final_BookDB_update (cur s) s) as [-> | ->];
    repeat split; cbn [cur db]; auto using updated_rows_other;
    apply updated_rows_dom.
Qed.

Lemma enrich_book_preserves_other_rows (force : bool) :
  preserves keeps_other_rows (enrich_book force).
Proof.
  unfold enrich_book, enrich_needed, fetch_records, adapter, sleep, apply_cover,
    apply_summary, apply_page_count, apply_publisher, store_key.
  preserves_steps_using
    ltac:(first [ apply save_keeps_other_rows
                | apply preserves_modify_book; intros; hnf; simpl; auto 10 ]).
Qed.

(** X2: [enrich_book] adds no row to the books table and removes none, and
    leaves every row but the one with the id of the book as it was, with
    or without force, whether it returns or raises. *)
Theorem enrich_book_keeps_other_rows (force : bool) (s : state) :
  (forall i : Z, i <> default 0 (book_id (cur s)) ->
     db (final (enrich_book force s)) !! i = db s !! i) /\
  (forall i : Z, is_Some (db (final (enrich_book force s)) !! i) <-> is_Some (db s !! i)).
Proof.
  destruct (enrich_book_preserves_other_rows force s) as (_ & Hrows & Hdom). auto.
Qed.

(** ** How much a run does *)

Lemma calls_app tr1 tr2 : calls (tr1 ++ tr2) = (calls tr1 + calls tr2)%nat.
Proof.
  induction tr1 as [ | [c r | d | b] tr1 IH]; simpl; [reflexivity | | | ]; rewrite IH; lia.
Qed.

Lemma updates_app tr1 tr2 : updates (tr1 ++ tr2) = (updates tr1 + updates tr2)%nat.
Proof.
  induction tr1 as [ | [c r | d | b] tr1 IH]; simpl; [reflexivity | | | ]; rewrite IH; lia.
Qed.

Lemma slept_app tr1 tr2 : slept (tr1 ++ tr2) = slept tr1 + slept tr2.
Proof.
  induction tr1 as [ | [c r | d | b] tr1 IH]; simpl; [reflexivity | | | ]; rewrite IH; lia.
Qed.

Lemma within_bind {A B} (measure : list event -> nat)
    (measure_app : forall tr1 tr2, measure (tr1 ++ tr2) = (measure tr1 + measure tr2)%nat)
    (n1 n2 : nat) (m : M A) (k : A -> M B) :
  within measure n1 m -> (forall x, within measure n2 (k x)) ->
  within measure (n1 + n2) (bind m k).
Proof.
  intros Hm Hk s. unfold bind. specialize (Hm s).
  destruct (value (m s)) as [e | x]; cbn [events].
  - lia.
  - rewrite measure_app. specialize (Hk x (final (m s))). lia.
Qed.

Lemma within_silent {A} (measure : list event -> nat) (n : nat) (m : M A) :
  measure [] = O -> (forall s, events (m s) = []) -> within measure n m.
Proof. intros Hnil H s. rewrite H, Hnil. lia. Qed.

Lemma within_if {A} (measure : list event -> nat) (n : nat) (c : bool) (m1 m2 : M A) :
  within measure n m1 -> within measure n m2 -> within measure n (if c then m1 else m2).
Proof. destruct c; auto. Qed.

Lemma call_then_sleep_calls c :
  within calls 1 (let* r := adapter c in run sleep REQUEST_DELAY then ret r).
Proof.
  intros s. unfold adapter, sleep, bind, emit, lift, ret. simpl.
  destruct (run_adapter c); simpl; lia.
Qed.

Lemma call_then_sleep_updates c :
  within updates 0 (let* r := adapter c in run sleep REQUEST_DELAY then ret r).
Proof.
  intros s. unfold adapter, sleep, bind, emit, lift, ret. simpl.
  destruct (run_adapter c); simpl; lia.
Qed.

Ltac within_call :=
  apply within_if;
  first [ apply call_then_sleep_calls | apply call_then_sleep_updates
        | apply within_silent; reflexivity ].

Lemma fetch_records_calls nc ns : within calls 4 (fetch_records nc ns).
Proof.
  unfold fetch_records.
  apply (within_bind calls calls_app 0 4); [apply within_silent; reflexivity | intros book].
  apply (within_bind calls calls_app 1 3);
    [within_call | intros ol1].
  apply (within_bind calls calls_app 1 2);
    [within_call | intros ol].
  apply (within_bind calls calls_app 1 1).
  { apply within_if; [ | apply within_silent; reflexivity].
    apply (within_bind calls calls_app 0 1); [apply within_silent; reflexivity | intros key].
    within_call. }
  intros wk.
  apply (within_bind calls calls_app 1 0);
    [within_call | intros g].
  apply within_silent; reflexivity.
Qed.

Lemma fetch_records_updates nc ns : within updates 0 (fetch_records nc ns).
Proof.
  unfold fetch_records.
  apply (within_bind updates updates_app 0 0); [apply within_silent; reflexivity | intros book].
  apply (within_bind updates updates_app 0 0); [within_call | intros ol1].
  apply (within_bind updates updates_app 0 0); [within_call | intros ol].
  apply (within_bind updates updates_app 0 0).
  { apply within_if; [ | apply within_silent; reflexivity].
    apply (within_bind updates updates_app 0 0); [apply within_silent; reflexivity | intros key].
    within_call. }
  intros wk.
  apply (within_bind updates updates_app 0 0); [within_call | intros g].
  apply within_silent; reflexivity.
Qed.

(** The steps of the fusion emit nothing; the write emits at most the
    UPDATE. *)
Lemma fusion_silent nc ns np npub ol wk g u s :
  events (apply_cover nc ol g u s) = [] /\ events (apply_summary ns wk g u s) = [] /\
  events (apply_page_count np ol g u s) = [] /\ events (apply_publisher npub ol g u s) = [] /\
  events (store_key ol u s) = [].
Proof.
  unfold apply_cover, apply_summary, apply_page_count, apply_publisher, store_key,
    bind, lift, modify_book, get_book, ret.
  repeat split; cbn [value final events];
    repeat match goal with
           | |- context [if ?c then _ else _] => destruct c; cbn [value final events]
           | |- context [match ?x with inl _ => _ | inr _ => _ end] =>
               destruct x; cbn [value final events]
           end;
    reflexivity.
Qed.

Lemma events_BookDB_update book s :
  events (BookDB_update book s) = [] \/ events (BookDB_update book s) = [EvUpdate book].
Proof. destruct (BookDB_update_cases book s) as [[e ->] | ->]; auto. Qed.

Lemma save_events u s :
  events (save u s) = [] \/ events (save u s) = [EvUpdate (cur s)].
Proof.
  destruct u; [ | left; reflexivity].
  assert (events (save true s) = events (BookDB_update (cur s) s)) as ->.
  { unfold save, bind. cbn [get_book value final events].
    destruct (value (BookDB_update (cur s) s)); cbn [value final events ret app];
      rewrite ?app_nil_r; reflexivity. }
  apply events_BookDB_update.
Qed.

Lemma enrich_needed_counts nc ns np npub :
  within calls 4 (enrich_needed nc ns np npub) /\
  within updates 1 (enrich_needed nc ns np npub).
Proof.
  unfold enrich_needed. split.
  - apply (within_bind calls calls_app 4 0); [apply fetch_records_calls | intros [[ol wk] g]].
    repeat (apply (within_bind calls calls_app 0 0);
            [ apply within_silent;
              [reflexivity | intros s; apply (fusion_silent nc ns np npub ol wk g)]
            | intros ?]).
    intros s.
    match goal with
    | |- context [save ?u s] => destruct (save_events u s) as [-> | ->]
    end; simpl; lia.
  - apply (within_bind updates updates_app 0 1);
      [apply fetch_records_updates | intros [[ol wk] g]].
    repeat (apply (within_bind updates updates_app 0 1);
            [ apply within_silent;
              [reflexivity | intros s; apply (fusion_silent nc ns np npub ol wk g)]
            | intros ?]).
    intros s.
    match goal with
    | |- context [save ?u s] => destruct (save_events u s) as [-> | ->]
    end; simpl; lia.
Qed.

Lemma enrich_book_counts force :
  within calls 4 (enrich_book force) /\ within updates 1 (enrich_book force).
Proof.
  split; intros s; rewrite events_enrich_book;
    match goal with |- context [if ?c then _ else _] => destruct c end;
    try (simpl; lia); apply enrich_needed_counts.
Qed.

Lemma governed_slept {A} (m : M A) s :
  governed m -> slept (events (m s)) <= Z.of_nat (calls (events (m s))) * REQUEST_DELAY.
Proof.
  intros Hg. specialize (Hg s).
  destruct (value (m s)); [destruct Hg as [Hg | Hg] | ].
  - rewrite (paced_slept _ Hg). lia.
  - rewrite (raised_slept _ _ Hg). unfold REQUEST_DELAY. lia.
  - rewrite (paced_slept _ Hg). lia.
Qed.

(** X3: a run of [enrich_book] makes at most four adapter calls (ISBN
    lookup, search, works lookup, Secondary search), hence sleeps at most
    four times the delay, and issues at most one UPDATE. *)
Theorem enrich_book_effort (force : bool) (s : state) :
  (calls (events (enrich_book force s)) <= 4)%nat /\
  slept (events (enrich_book force s)) <= 4 * REQUEST_DELAY /\
  (updates (events (enrich_book force s)) <= 1)%nat.
Proof.
  destruct (enrich_book_counts force) as [Hc Hu]. specialize (Hc s). specialize (Hu s).
  repeat split; try assumption.
  pose proof (governed_slept _ s (enrich_book_governed force)) as Hs.
  unfold REQUEST_DELAY in *. lia.
Qed.

(** ** Calls that are not made *)

Lemma never_bind {A B} (p : event -> bool) (m : M A) (k : A -> M B) :
  never p m -> (forall x, never p (k x)) -> never p (bind m k).
Proof.
  intros Hm Hk s. unfold bind. specialize (Hm s).
  destruct (value (m s)) as [e | x]; cbn [events]; [exact Hm | ].
  apply Forall_app. split; [exact Hm | apply Hk].
Qed.

Lemma never_silent {A} (p : event -> bool) (m : M A) :
  (forall s, events (m s) = []) -> never p m.
Proof. intros H s. rewrite H. constructor. Qed.

Lemma never_call_then_sleep (p : event -> bool) c :
  p (EvCall c (run_adapter c)) = false -> p (EvSleep REQUEST_DELAY) = false ->
  never p (let* r := adapter c in run sleep REQUEST_DELAY then ret r).
Proof.
  intros Hc Hs s. unfold adapter, sleep, bind, emit, lift, ret. simpl.
  destruct (run_adapter c); simpl; repeat constructor; assumption.
Qed.

Lemma fetch_records_no_supplement : never is_supplement_call (fetch_records false false).
Proof.
  unfold fetch_records.
  apply never_bind; [apply never_silent; reflexivity | intros book].
  apply never_bind; [ | intros ol1].
  { destruct (truthy_ostr _); [ | apply never_silent; reflexivity].
    apply never_call_then_sleep; reflexivity. }
  apply never_bind; [ | intros ol].
  { destruct (negb (truthy ol1) && _); [ | apply never_silent; reflexivity].
    apply never_call_then_sleep; reflexivity. }
  apply never_bind; [ | intros wk].
  { destruct (truthy ol); [ | apply never_silent; reflexivity].
    apply never_bind; [apply never_silent; reflexivity | intros key].
    rewrite andb_false_r. apply never_silent; reflexivity. }
  apply never_bind; apply never_silent || intros g; reflexivity || idtac.
  apply never_silent; reflexivity.
Qed.

(** X4: without force, a book that has a cover and a summary costs no
    works lookup and no Secondary search: the only adapters called for its
    page count or publisher are the ISBN lookup and the title search. *)
Theorem no_supplement_without_need (s : state) :
  truthy (cover_url (cur s)) = true ->
  truthy (summary (cur s)) = true ->
  Forall (fun e => is_supplement_call e = false) (events (enrich_book false s)).
Proof.
  intros Hc Hs. rewrite events_enrich_book.
  rewrite (needs_filled _ Hc), (needs_filled _ Hs).
  match goal with |- context [if ?c then _ else _] => destruct c end.
  - constructor.
  - revert s Hc Hs.
    assert (forall np npub, never is_supplement_call (enrich_needed false false np npub)) as H.
    { intros np npub. unfold enrich_needed.
      apply never_bind; [apply fetch_records_no_supplement | intros [[ol wk] g]].
      repeat (apply never_bind;
              [apply never_silent; intros s; apply (fusion_silent false false np npub ol wk g)
              | intros ?]).
      intros s.
      match goal with
      | |- context [save ?u s] => destruct (save_events u s) as [-> | ->]
      end; repeat constructor. }
    intros s _ _. apply H.
Qed.

(** ** The returned flag and the write *)

(** A step of the fusion that returns either wrote, and then the flag is
    set, or left state and flag as they were. *)
Lemma fusion_flags nc ns np npub ol wk g :
  (forall u s u' s' tr, returns (apply_cover nc ol g u) s u' s' tr ->
                        u' = true \/ (u' = u /\ s' = s)) /\
  (forall u s u' s' tr, returns (apply_summary ns wk g u) s u' s' tr ->
                        u' = true \/ (u' = u /\ s' = s)) /\
  (forall u s u' s' tr, returns (apply_page_count np ol g u) s u' s' tr ->
                        u' = true \/ (u' = u /\ s' = s)) /\
  (forall u s u' s' tr, returns (apply_publisher npub ol g u) s u' s' tr ->
                        u' = true \/ (u' = u /\ s' = s)) /\
  (forall u s u' s' tr, returns (store_key ol u) s u' s' tr ->
                        u' = true \/ (u' = u /\ s' = s)).
Proof.
  repeat split; intros u s u' s' tr H;
    [ apply apply_cover_returns in H | apply apply_summary_returns in H
    | apply apply_page_count_returns in H | apply apply_publisher_returns in H
    | apply store_key_returns in H ];
    destruct H as [_ H];
    repeat match type of H with
      | if ?c then _ else _ => destruct c
      | exists _, _ => destruct H as (? & ? & H)
      | _ /\ _ => destruct H as [-> ->]
      end;
    auto.
Qed.

Lemma save_returns_id s b s' tr :
  returns (save true) s b s' tr ->
  truthy_oint (book_id (cur s)) = true /\
  sqlite_bind (JNum (default 0 (book_id (cur s)))) = inr tt.
Proof.
  unfold save, BookDB_update. intros H.
  apply returns_bind_inv in H as (book & s0 & ta & tb & Hget & H & ->).
  apply returns_get_book_inv in Hget as (-> & -> & ->).
  apply returns_bind_inv in H as (u & s1 & tc & td & H & _ & _).
  destruct (truthy_oint (book_id (cur s))); cbn [negb] in H;
    [ | apply returns_raise_inv in H; destruct H].
  split; [reflexivity | ].
  repeat (apply returns_bind_inv in H as (? & ? & ? & ? & ? & H & ?)).
  repeat match goal with
         | Hl : returns (lift _) _ _ _ _ |- _ => apply returns_lift_inv in Hl as (Hl & _ & _)
         end.
  match goal with
  | Hl : sqlite_bind (JNum _) = inr ?u |- _ => destruct u; exact Hl
  end.
Qed.

(** What the flag of a run that returns says. *)
Lemma enrich_book_returns_flag force s b :
  value (enrich_book force s) = inr b ->
  if b then
    exists tr0,
      events (enrich_book force s) = tr0 ++ [EvUpdate (cur (final (enrich_book force s)))] /\
      updates tr0 = O /\
      db (final (enrich_book force s))
        = updated_rows (cur (final (enrich_book force s))) (db s) /\
      truthy_oint (book_id (cur (final (enrich_book force s)))) = true /\
      sqlite_bind (JNum (default 0 (book_id (cur (final (enrich_book force s)))))) = inr tt
  else
    final (enrich_book force s) = s /\ updates (events (enrich_book force s)) = O.
Proof.
  intros Hret. apply returns_of_value, enrich_book_returns in Hret.
  destruct Hret as [(_ & -> & Hs & Htr) | (_ & Hrun)].
  { rewrite Hs, Htr. auto. }
  destruct Hrun as (ol & wk & g & tr0 & u1 & s1 & u2 & s2 & u3 & s3 & u4 & s4 & u5 & s5
                    & trs & Hf & H1 & H2 & H3 & H4 & H5 & H6 & Htr).
  assert (updates tr0 = O) as Htr0.
  { pose proof (fetch_records_updates (needs force (cover_url (cur s)))
                  (needs force (summary (cur s))) s) as Hle.
    rewrite (returns_events _ _ _ _ _ Hf) in Hle. lia. }
  pose proof (apply_cover_frame _ _ _ _ _ _ _ _ H1) as (_ & _ & _ & _ & Hd1).
  pose proof (apply_summary_frame _ _ _ _ _ _ _ _ H2) as (_ & _ & _ & _ & Hd2).
  pose proof (apply_page_count_frame _ _ _ _ _ _ _ _ H3) as (_ & _ & _ & _ & Hd3).
  pose proof (apply_publisher_frame _ _ _ _ _ _ _ _ H4) as (_ & _ & _ & _ & Hd4).
  pose proof (store_key_frame _ _ _ _ _ _ H5) as (_ & _ & _ & _ & Hd5).
  destruct (fusion_flags (needs force (cover_url (cur s))) (needs force (summary (cur s)))
              (needs force (page_count (cur s))) (needs force (publisher (cur s))) ol wk g)
    as (F1 & F2 & F3 & F4 & F5).
  pose proof (save_returns _ _ _ _ _ H6) as (-> & Hsave).
  destruct u5.
  - pose proof (save_returns_id _ _ _ _ H6) as (Hid & Hbind).
    destruct Hsave as (Hfin & ->). rewrite Htr, Hfin. cbn [cur db].
    exists tr0. repeat split; try assumption.
    rewrite Hd5, Hd4, Hd3, Hd2, Hd1. reflexivity.
  - destruct Hsave as (Hfin & ->). rewrite Htr, Hfin, app_nil_r.
    split; [ | exact Htr0].
    destruct (F5 _ _ _ _ _ H5) as [Hu | (Hu & Hs)]; [discriminate | symmetry in Hu; subst].
    destruct (F4 _ _ _ _ _ H4) as [Hu | (Hu & Hs)]; [discriminate | symmetry in Hu; subst].
    destruct (F3 _ _ _ _ _ H3) as [Hu | (Hu & Hs)]; [discriminate | symmetry in Hu; subst].
    destruct (F2 _ _ _ _ _ H2) as [Hu | (Hu & Hs)]; [discriminate | symmetry in Hu; subst].
    destruct (F1 _ _ _ _ _ H1) as [Hu | (Hu & Hs)]; [discriminate | congruence].
Qed.

(** X5: the flag [enrich_book] returns tells exactly whether the book's
    row was written: when it returns [True] the run issued one UPDATE, as
    its last step and with the book as it is at the end; when it returns
    [False] it issued none and left the book object and the table as they
    were. *)
Theorem changed_flag_tells_the_write (force : bool) (s : state) (b : bool) :
  value (enrich_book force s) = inr b ->
  if b then
    last (events (enrich_book force s))
      = Some (EvUpdate (cur (final (enrich_book force s)))) /\
    updates (events (enrich_book force s)) = 1%nat /\
    db (final (enrich_book force s))
      = updated_rows (cur (final (enrich_book force s))) (db s)
  else
    final (enrich_book force s) = s /\ updates (events (enrich_book force s)) = O.
Proof.
  intros Hret. apply enrich_book_returns_flag in Hret. destruct b; [ | exact Hret].
  destruct Hret as (tr0 & -> & Htr0 & Hdb & _).
  repeat split.
  - apply last_snoc.
  - rewrite updates_app, Htr0. reflexivity.
  - exact Hdb.
Qed.

(** ** A book without id *)

#[local] Instance keeps_table_without_id_preorder : PreOrder keeps_table_without_id.
Proof.
  split.
  - intros s. split; auto.
  - intros s1 s2 s3 (Hid & Hdb) (Hid' & Hdb'). unfold keeps_table_without_id. split.
    + congruence.
    + intros H. rewrite Hdb' by (rewrite Hid; exact H). apply Hdb, H.
Qed.

Lemma save_keeps_table_without_id u : preserves keeps_table_without_id (save u).
Proof.
  intros s. split.
  - assert (preserves (keeps book_id) (save u)) as H by apply save_keeps. apply H.
  - intros Hid. unfold save. destruct u; [ | reflexivity].
    unfold bind, get_book, BookDB_update. cbn [value final events].
    rewrite Hid. reflexivity.
Qed.

(** X6: for a book without id ([None] or [0]), [enrich_book] never
    returns [True] and never changes the table: when it returns, it
    returns [False] with the book as it was; what it finds ends the run
    with [ValueError] of [BookDB.update] and is not stored. *)
Theorem book_without_id_is_never_saved (force : bool) (s : state) :
  truthy_oint (book_id (cur s)) = false ->
  db (final (enrich_book force s)) = db s /\
  (forall b, value (enrich_book force s) = inr b ->
             b = false /\ final (enrich_book force s) = s).
Proof.
  intros Hid. split.
  - assert (preserves keeps_table_without_id (enrich_book force)) as H.
    { unfold enrich_book, enrich_needed, fetch_records, adapter, sleep, apply_cover,
        apply_summary, apply_page_count, apply_publisher, store_key.
      preserves_steps_using
        ltac:(first [ apply save_keeps_table_without_id
                    | apply preserves_modify_book; intros; hnf; simpl; auto ]). }
    apply H, Hid.
  - intros b Hret. pose proof (enrich_book_returns_flag force s b Hret) as Hflag.
    destruct b.
    + destruct Hflag as (_ & _ & _ & _ & Hsaved & _).
      destruct (enrich_book_preserves_identity force s) as (Hsame & _).
      rewrite Hsame, Hid in Hsaved. discriminate.
    + split; [reflexivity | apply Hflag].
Qed.

(** ** Enriching by id *)




Lemma enrich_by_id_run id force s :
  enrich_by_id id force s
  = match sqlite_bind (JNum id) with
    | inl e => mkOutcome (inl e) s []
    | inr _ =>
        match db s !! id with
        | None => mkOutcome (inr tt) s []
        | Some row =>
            let o := enrich_book force (mkState row (db s)) in
            mkOutcome (match value o with inl e => inl e | inr _ => inr tt end)
                      (final o) (events o)
        end
    end.
Proof.
  unfold enrich_by_id, BookDB_get, bind, lift, modify_book, ret.
  destruct (sqlite_bind (JNum id)); cbn [value final events cur db app]; [reflexivity | ].
  destruct (db s !! id) as [row | ]; cbn [value final events cur db app]; [ | reflexivity].
  destruct (value (enrich_book force (mkState row (db s))));
    cbn [value final events app]; rewrite ?app_nil_r; reflexivity.
Qed.

(** X16: enriching by id touches the row of that id only, and an id that
    has no row ends the run at once: no adapter is called and nothing is
    changed. *)
Theorem enrich_by_id_touches_one_row (id : Z) (force : bool) (s : state) :
  (forall row, db s !! id = Some row -> book_id row = Some id) ->
  (forall i : Z, i <> id -> db (final (enrich_by_id id force s)) !! i = db s !! i) /\
  (db s !! id = None ->
   final (enrich_by_id id force s) = s /\ events (enrich_by_id id force s) = []).
Proof.
  intros Hkey. rewrite enrich_by_id_run.
  destruct (sqlite_bind (JNum id)); cbn [value final events]; [auto | ].
  destruct (db s !! id) as [row | ] eqn:Hrow; [ | auto].
  split; [ | discriminate].
  intros i Hi. cbn [final].
  destruct (enrich_book_preserves_other_rows force (mkState row (db s))) as (_ & Hrows & _).
  cbn [cur db] in Hrows. rewrite (Hkey row eq_refl) in Hrows.
  apply Hrows, Hi.
Qed.

(** ** Runs that raise *)

#[local] Instance keeps_table_preorder : PreOrder keeps_table.
Proof.
  split.
  - intros s. reflexivity.
  - intros s1 s2 s3 H12 H23. unfold keeps_table in *. congruence.
Qed.

Lemma clean_raise_bind {A B} (m : M A) (k : A -> M B) :
  preserves keeps_table m -> within updates 0 m -> (forall x, clean_raise (k x)) ->
  clean_raise (bind m k).
Proof.
  intros Hdb Hup Hk s e. unfold bind. specialize (Hdb s). specialize (Hup s).
  unfold keeps_table in Hdb.
  destruct (value (m s)) as [e' | x] eqn:Hm; cbn [value final events].
  - intros _. split; [exact Hdb | lia].
  - intros Hv. destruct (Hk x _ e Hv) as [Hd Hu].
    split; [congruence | rewrite updates_app; lia].
Qed.

Lemma BookDB_update_raises book s e :
  value (BookDB_update book s) = inl e ->
  final (BookDB_update book s) = s /\ events (BookDB_update book s) = [].
Proof. destruct (BookDB_update_cases book s) as [[e' ->] | ->]; [auto | discriminate]. Qed.

Lemma save_clean_raise u : clean_raise (save u).
Proof.
  intros s e. unfold save. destruct u; [ | discriminate].
  unfold bind, get_book. cbn [value final events].
  destruct (BookDB_update_cases (cur s) s) as [[e' ->] | ->]; cbn [value final events ret];
    [auto | discriminate].
Qed.

Lemma fusion_keeps_table nc ns np npub ol wk g u :
  preserves keeps_table (apply_cover nc ol g u) /\
  preserves keeps_table (apply_summary ns wk g u) /\
  preserves keeps_table (apply_page_count np ol g u) /\
  preserves keeps_table (apply_publisher npub ol g u) /\
  preserves keeps_table (store_key ol u).
Proof.
  unfold apply_cover, apply_summary, apply_page_count, apply_publisher, store_key.
  repeat split; preserves_steps.
Qed.

Lemma fetch_records_keeps_table nc ns : preserves keeps_table (fetch_records nc ns).
Proof. unfold fetch_records, adapter, sleep. preserves_steps. Qed.

Lemma enrich_book_clean_raise force : clean_raise (enrich_book force).
Proof.
  unfold enrich_book.
  apply clean_raise_bind;
    [intros s; reflexivity | apply within_silent; reflexivity | intros book].
  match goal with |- clean_raise (if ?c then _ else _) => destruct c end;
    [intros s e; discriminate | ].
  generalize (needs force (cover_url book)) (needs force (summary book))
    (needs force (page_count book)) (needs force (publisher book)).
  intros nc ns np npub. unfold enrich_needed.
  apply clean_raise_bind;
    [apply fetch_records_keeps_table | apply fetch_records_updates | intros [[ol wk] g]].
  repeat (apply clean_raise_bind;
          [ apply (fusion_keeps_table nc ns np npub ol wk g)
          | apply within_silent;
            [reflexivity | intros s; apply (fusion_silent nc ns np npub ol wk g)]
          | intros ?]).
  apply save_clean_raise.
Qed.

(** X8: a run of [enrich_book] that ends with an exception has issued no
    UPDATE and leaves the books table as it was, whatever it had assigned
    to the book object by then. *)
Theorem raising_run_writes_nothing (force : bool) (s : state) (e : exn) :
  value (enrich_book force s) = inl e ->
  db (final (enrich_book force s)) = db s /\
  updates (events (enrich_book force s)) = O.
Proof. apply enrich_book_clean_raise. Qed.

(** ** The batch *)

Lemma bind_assoc {A B C} (m : M A) (f : A -> M B) (g : B -> M C) s :
  bind (bind m f) g s = bind m (fun x => bind (f x) g) s.
Proof.
  unfold bind. destruct (value (m s)) as [e | x]; cbn [value final events]; [reflexivity | ].
  destruct (value (f x (final (m s)))) as [e | y]; cbn [value final events]; [reflexivity | ].
  rewrite app_assoc. reflexivity.
Qed.

Lemma bind_ext {A B} (m : M A) (k k' : A -> M B) s :
  (forall x s', k x s' = k' x s') -> bind m k s = bind m k' s.
Proof. intros H. unfold bind. destruct (value (m s)); [reflexivity | ]. rewrite H. reflexivity. Qed.

Lemma bind_run {A B} (m m' : M A) (k : A -> M B) s s' :
  m s = m' s' -> bind m k s = bind m' k s'.
Proof. intros H. unfold bind. rewrite H. reflexivity. Qed.

Lemma enrich_books_cons force book books n s :
  enrich_books force (book :: books) n s
  = bind (enrich_book force)
      (fun changed => enrich_books force books (if changed then S n else n))
      (mkState book (db s)).
Proof.
  cbn [enrich_books]. unfold bind at 1, modify_book. cbn [value final events app].
  symmetry. apply outcome_eta.
Qed.

Lemma enrich_books_app force pre post n s :
  enrich_books force (pre ++ post) n s
  = bind (enrich_books force pre n) (fun k => enrich_books force post k) s.
Proof.
  revert n s. induction pre as [ | book pre IH]; intros n s.
  - cbn [app enrich_books]. unfold bind, ret. cbn [value final events app].
    apply outcome_eta.
  - cbn [app]. rewrite enrich_books_cons.
    rewrite (bind_run _ _ _ _ _ (enrich_books_cons force book pre n s)), bind_assoc.
    apply bind_ext. intros changed s'. apply IH.
Qed.

Lemma enrich_book_updates force s b :
  value (enrich_book force s) = inr b ->
  updates (events (enrich_book force s)) = if b then 1%nat else O.
Proof.
  intros H. apply enrich_book_returns_flag in H. destruct b.
  - destruct H as (tr0 & -> & Htr0 & _). rewrite updates_app, Htr0. reflexivity.
  - apply H.
Qed.

(** X9: the number the batch reports as updated is the number of UPDATE
    statements it issued, one for each book [enrich_book] returned [True]
    for, and so at most the number of books. *)
Theorem batch_counts_the_updates (force : bool) (books : list Book) (s : state) (k : nat) :
  value (enrich_books force books O s) = inr k ->
  k = updates (events (enrich_books force books O s)) /\ (k <= length books)%nat.
Proof.
  assert (forall n s k, value (enrich_books force books n s) = inr k ->
            k = (n + updates (events (enrich_books force books n s)))%nat /\
            (k <= n + length books)%nat) as H.
  { clear s k. induction books as [ | book books IH]; intros n s k.
    - cbn. intros [= <-]. lia.
    - rewrite enrich_books_cons. intros Hv.
      apply value_bind_inr in Hv as (changed & Hrun & Hrest).
      rewrite (events_bind_inr _ _ _ _ Hrun), updates_app, (enrich_book_updates _ _ _ Hrun).
      apply IH in Hrest as [-> Hle]. cbn [length]. destruct changed; lia. }
  intros Hv. apply H in Hv. lia.
Qed.

Lemma enrich_books_governed force books n : governed (enrich_books force books n).
Proof.
  revert n. induction books as [ | book books IH]; intros n.
  - apply governed_silent. reflexivity.
  - cbn [enrich_books].
    apply governed_bind; [apply governed_silent; reflexivity | intros _].
    apply governed_bind; [apply enrich_book_governed | intros changed; apply IH].
Qed.

Lemma enrich_books_counts force books n s :
  (calls (events (enrich_books force books n s)) <= 4 * length books)%nat /\
  (updates (events (enrich_books force books n s)) <= length books)%nat.
Proof.
  revert n s. induction books as [ | book books IH]; intros n s.
  - cbn. lia.
  - rewrite enrich_books_cons. cbn [length].
    destruct (enrich_book_counts force) as [Hc Hu].
    specialize (Hc (mkState book (db s))). specialize (Hu (mkState book (db s))).
    unfold bind. destruct (value (enrich_book force (mkState book (db s)))) as [e | changed];
      cbn [events]; [lia | ].
    rewrite calls_app, updates_app.
    match goal with |- context [enrich_books force books ?n' ?s'] =>
      destruct (IH n' s') as [Hc' Hu'] end.
    lia.
Qed.

(** X10: the delay holds across the batch: every adapter call that returns
    is followed at once by [time.sleep(REQUEST_DELAY)], also between two
    books, and a call that raises ends the batch.  A batch of n books makes
    at most 4n adapter calls, sleeps at most 4n times the delay and
    issues at most n UPDATEs. *)
Theorem batch_is_paced (force : bool) (books : list Book) (n : nat) (s : state) :
  (forall (i : nat) c r,
     events (enrich_books force books n s) !! i = Some (EvCall c r) ->
     match r with
     | inr _ => events (enrich_books force books n s) !! S i = Some (EvSleep REQUEST_DELAY)
     | inl e =>
         value (enrich_books force books n s) = inl e /\
         S i = length (events (enrich_books force books n s))
     end) /\
  (calls (events (enrich_books force books n s)) <= 4 * length books)%nat /\
  slept (events (enrich_books force books n s)) <= 4 * Z.of_nat (length books) * REQUEST_DELAY /\
  (updates (events (enrich_books force books n s)) <= length books)%nat.
Proof.
  destruct (enrich_books_counts force books n s) as [Hc Hu].
  pose proof (governed_slept _ s (enrich_books_governed force books n)) as Hs.
  repeat split; [ | exact Hc | unfold REQUEST_DELAY in *; lia | exact Hu].
  pose proof (enrich_books_governed force books n s) as H.
  intros i c r Hi.
  destruct (value (enrich_books force books n s)) as [e | k] eqn:Hv.
  - destruct H as [H | H].
    + destruct (paced_follow _ H i c r Hi) as [[v ->] Hn]. exact Hn.
    + pose proof (raised_follow _ _ H i c r Hi) as Hr.
      destruct r; [ | exact Hr]. destruct Hr as [-> Hr]. auto.
  - destruct (paced_follow _ H i c r Hi) as [[v ->] Hn]. exact Hn.
Qed.

(** X11: an exception raised for one book ends the batch: the batch raises
    it, the books listed after that book are not looked up, and nothing is
    written for that book. *)
Theorem batch_stops_at_exception (force : bool) (pre post : list Book) (book : Book)
    (s : state) (k : nat) (e : exn) :
  value (enrich_books force pre O s) = inr k ->
  value (enrich_book force (mkState book (db (final (enrich_books force pre O s))))) = inl e ->
  value (enrich_books force (pre ++ book :: post) O s) = inl e /\
  events (enrich_books force (pre ++ book :: post) O s)
    = events (enrich_books force pre O s)
      ++ events (enrich_book force (mkState book (db (final (enrich_books force pre O s))))) /\
  db (final (enrich_books force (pre ++ book :: post) O s))
    = db (final (enrich_books force pre O s)).
Proof.
  intros Hpre Hbook. rewrite enrich_books_app.
  unfold bind at 1 2 3. rewrite Hpre. cbn [value final events].
  rewrite enrich_books_cons. unfold bind. rewrite Hbook. cbn [value final events].
  repeat split.
  apply (enrich_book_clean_raise force _ e Hbook).
Qed.

(** ** Books that cannot be looked up *)

Lemma fetch_records_blank nc ns s :
  truthy_ostr (py_or (isbn13 (cur s)) (isbn (cur s))) = false ->
  title (cur s) = ""%string ->
  fetch_records nc ns s
  = mkOutcome (inr (JNull, JNull, JNull)) s
      (if nc || ns
       then [EvCall (CallGoogle (py_or (isbn13 (cur s)) (isbn (cur s))) "" (author (cur s)))
               (inr JNull);
             EvSleep REQUEST_DELAY]
       else []).
Proof.
  intros Hid Ht.
  assert (run_adapter (CallGoogle (py_or (isbn13 (cur s)) (isbn (cur s))) "" (author (cur s)))
          = inr JNull) as Hg.
  { cbn [run_adapter]. unfold fetch_google_books, google_query. rewrite Hid. reflexivity. }
  unfold fetch_records, bind, get_book. cbn [value final events].
  rewrite Hid, Ht. cbn [ret value final events truthy negb andb truthy_str String.eqb app].
  unfold adapter, sleep, emit, lift, bind. cbn [value final events]. rewrite Hg.
  destruct (nc || ns); reflexivity.
Qed.

Lemma enrich_needed_blank nc ns np npub s :
  truthy_ostr (py_or (isbn13 (cur s)) (isbn (cur s))) = false ->
  title (cur s) = ""%string ->
  enrich_needed nc ns np npub s
  = mkOutcome (inr false) s
      (if nc || ns
       then [EvCall (CallGoogle (py_or (isbn13 (cur s)) (isbn (cur s))) "" (author (cur s)))
               (inr JNull);
             EvSleep REQUEST_DELAY]
       else []).
Proof.
  intros Hid Ht. unfold enrich_needed. unfold bind at 1.
  rewrite (fetch_records_blank _ _ _ Hid Ht). cbn [value final events].
  destruct nc, ns, np, npub; reflexivity.
Qed.

(** X12: a book with neither an ISBN nor a title cannot be looked up:
    [enrich_book] sends no request (the one adapter it may call, the
    Secondary search, has no query and returns [None]), writes nothing,
    leaves the book as it was and returns [False], with or without
    force. *)
Theorem book_without_isbn_and_title (force : bool) (s : state) :
  truthy_ostr (py_or (isbn13 (cur s)) (isbn (cur s))) = false ->
  title (cur s) = ""%string ->
  value (enrich_book force s) = inr false /\
  final (enrich_book force s) = s /\
  updates (events (enrich_book force s)) = O /\
  (forall c r, In (EvCall c r) (events (enrich_book force s)) ->
               request_of c = None /\ r = inr JNull).
Proof.
  intros Hid Ht.
  rewrite value_enrich_book, final_enrich_book, events_enrich_book.
  match goal with |- context [if ?c then _ else _] => destruct c end.
  - split; [reflexivity | split; [reflexivity | split; [reflexivity | intros c r []]]].
  - rewrite (enrich_needed_blank _ _ _ _ _ Hid Ht). cbn [value final events].
    split; [reflexivity | split; [reflexivity | ]].
    match goal with |- context [if ?c then _ else _] => destruct c end;
      (split; [reflexivity | ]); intros c r Hin; [ | destruct Hin].
    destruct Hin as [[= <- <-] | [[=] | []]].
    cbn [request_of]. unfold google_query. rewrite Hid. split; reflexivity.
Qed.

(** ** The order of the Primary lookups *)

Lemma call_then_sleep_run c v s :
  run_adapter c = inr v ->
  (let* r := adapter c in run sleep REQUEST_DELAY then ret r) s
  = mkOutcome (inr v) s [EvCall c (inr v); EvSleep REQUEST_DELAY].
Proof.
  intros H. unfold adapter, sleep, emit, lift, ret, bind. cbn [value final events].
  rewrite H. reflexivity.
Qed.

Lemma isbn_adapter_failed i :
  reply_failed (w (mkRequest (OPENLIBRARY_ISBN_API i) [])) = true ->
  run_adapter (CallOLIsbn i) = inr JNull.
Proof.
  cbn [run_adapter]. unfold fetch_openlibrary_by_isbn, requests_get, response_json, reply_failed.
  destruct (w _) as [ | [st bd]]; cbn; [reflexivity | ].
  destruct (st =? 200); cbn.
  - destruct bd; [discriminate | reflexivity].
  - intros _. destruct (st =? 404); reflexivity.
Qed.

Lemma Forall_events_bind {A B} (P : event -> Prop) (m : M A) (k : A -> M B) s :
  Forall P (events (m s)) ->
  (forall x, value (m s) = inr x -> Forall P (events (k x (final (m s))))) ->
  Forall P (events (bind m k s)).
Proof.
  intros Hm Hk. unfold bind.
  destruct (value (m s)) as [e | x]; cbn [events]; [exact Hm | ].
  apply Forall_app. split; [exact Hm | apply Hk; reflexivity].
Qed.

Lemma fusion_never p nc ns np npub ol wk g :
  (forall b, p (EvUpdate b) = false) ->
  never p (let* updated := apply_cover nc ol g false in
           let* updated := apply_summary ns wk g updated in
           let* updated := apply_page_count np ol g updated in
           let* updated := apply_publisher npub ol g updated in
           let* updated := store_key ol updated in
           save updated).
Proof.
  intros Hp.
  repeat (apply never_bind;
          [apply never_silent; intros s; apply (fusion_silent nc ns np npub ol wk g)
          | intros ?]).
  intros s.
  match goal with
  | |- context [save ?u s] => destruct (save_events u s) as [-> | ->]
  end; repeat constructor. apply Hp.
Qed.

(** X13: the Primary is asked by ISBN first, and by title only when that
    gave nothing.  For a book with an ISBN and a title that lacks some
    field: when the ISBN request fails (network error, status other than
    200, body that is not JSON), the run goes on, after the delay, with the
    search by title and author; when the ISBN lookup gives a record, no
    search by title is made. *)
Theorem search_only_after_isbn_miss (force : bool) (s : state) (i : string) :
  py_or (isbn13 (cur s)) (isbn (cur s)) = Some i ->
  truthy_str i = true ->
  truthy_str (title (cur s)) = true ->
  needs force (cover_url (cur s)) || needs force (summary (cur s))
    || needs force (page_count (cur s)) || needs force (publisher (cur s)) = true ->
  (reply_failed (w (mkRequest (OPENLIBRARY_ISBN_API i) [])) = true ->
   exists r rest,
     events (enrich_book force s)
     = EvCall (CallOLIsbn i) (inr JNull) :: EvSleep REQUEST_DELAY
       :: EvCall (CallOLSearch (title (cur s)) (author (cur s))) r :: rest) /\
  (forall ol, run_adapter (CallOLIsbn i) = inr ol -> truthy ol = true ->
     Forall (fun e => is_search_call e = false) (events (enrich_book force s))).
Proof.
  intros Hid Hi Ht Hneed. rewrite events_enrich_book, Hneed. cbn [negb].
  unfold enrich_needed. split.
  - intros Hfail. apply isbn_adapter_failed in Hfail.
    match goal with |- context [events (bind ?m ?k s)] =>
      destruct (events_bind_prefix m k s) as [rest ->] end.
    unfold fetch_records.
    rewrite (events_bind_inr get_book _ s (cur s) eq_refl).
    change (final (get_book s)) with s. change (events (get_book s)) with (@nil event).
    rewrite app_nil_l, Hid. cbn [truthy_ostr]. rewrite Hi.
    change (default ""%string (Some i)) with i.
    unfold bind at 1. rewrite (call_then_sleep_run _ _ _ Hfail). cbn [value final events].
    cbn [truthy negb andb]. rewrite Ht.
    match goal with |- context [events (bind ?m ?k s)] =>
      destruct (events_bind_prefix m k s) as [rest1 ->] end.
    match goal with |- context [events (bind (adapter ?c) ?k s)] =>
      destruct (events_call_first c k s) as [rest2 ->] end.
    cbn [app]. eauto.
  - intros ol Hol Htol.
    apply Forall_events_bind; [ | intros [[ol' wk] g] _; apply fusion_never; reflexivity].
    unfold fetch_records.
    apply Forall_events_bind; [constructor | intros book [= <-]].
    change (final (get_book s)) with s. rewrite Hid. cbn [truthy_ostr]. rewrite Hi.
    change (default ""%string (Some i)) with i.
    apply Forall_events_bind;
      [ rewrite (call_then_sleep_run _ _ _ Hol); repeat constructor
      | intros ol1 Hv; rewrite (call_then_sleep_run _ _ _ Hol) in Hv |- *;
        injection Hv as <- ].
    cbn [final]. rewrite Htol. cbn [negb andb].
    apply Forall_events_bind; [constructor | intros ol2 [= <-]].
    change (final (ret ol s)) with s.
    apply never_bind; [ | intros wk].
    { rewrite Htol.
      apply never_bind; [apply never_silent; reflexivity | intros key].
      destruct (truthy key && _); [ | apply never_silent; reflexivity].
      apply never_call_then_sleep; reflexivity. }
    apply never_bind; [ | intros g; apply never_silent; reflexivity].
    match goal with |- never _ (if ?c then _ else _) => destruct c end;
      [ | apply never_silent; reflexivity].
    apply never_call_then_sleep; reflexivity.
Qed.

(** ** The books the store lists *)








(** ** Running twice *)

Lemma returns_bind_intro {A B} (m : M A) (k : A -> M B) s x s1 tr1 y s2 tr2 :
  returns m s x s1 tr1 -> returns (k x) s1 y s2 tr2 ->
  returns (bind m k) s y s2 (tr1 ++ tr2).
Proof. unfold returns, bind. intros -> H. cbn [value final events]. rewrite H. reflexivity. Qed.

Lemma returns_ret_intro {A} (x : A) s : returns (ret x) s x s [].
Proof. reflexivity. Qed.

Lemma call_then_sleep_again c y s s1 tr s' :
  returns (let* r := adapter c in run sleep REQUEST_DELAY then ret r) s y s1 tr ->
  returns (let* r := adapter c in run sleep REQUEST_DELAY then ret r) s' y s' tr.
Proof.
  intros H. apply returns_call_sleep_inv in H as (Hv & _ & ->).
  unfold returns. rewrite (call_then_sleep_run _ _ _ Hv), Hv. reflexivity.
Qed.

(** The records depend on the identifiers, the title and the author only;
    with fewer fields missing, fewer of them are fetched. *)
Lemma fetch_records_again nc ns nc' ns' s s1 s' ol wk g tr :
  returns (fetch_records nc ns) s (ol, wk, g) s1 tr ->
  isbn13 (cur s') = isbn13 (cur s) -> isbn (cur s') = isbn (cur s) ->
  title (cur s') = title (cur s) -> author (cur s') = author (cur s) ->
  (ns' = true -> ns = true) -> (nc' || ns' = true -> nc || ns = true) ->
  exists tr',
    returns (fetch_records nc' ns') s'
      (ol, (if ns' then wk else JNull), (if nc' || ns' then g else JNull)) s' tr'.
Proof.
  intros H E1 E2 E3 E4 Hns Hg. unfold fetch_records in *.
  apply returns_bind_inv in H as (book & s0 & ta & tb & Hget & H & ->).
  apply returns_get_book_inv in Hget as (-> & -> & ->).
  apply returns_bind_inv in H as (ol1 & sa & tc & td & H1 & H & ->).
  apply returns_bind_inv in H as (ol2 & sb & te & tf & H2 & H & ->).
  apply returns_bind_inv in H as (wk1 & sc & tg & th & H3 & H & ->).
  apply returns_bind_inv in H as (g1 & sd & ti & tj & H4 & H & ->).
  apply returns_ret_inv in H as ([= <- <- <-] & -> & ->).
  assert (exists t,
            returns (if truthy_ostr (py_or (isbn13 (cur s)) (isbn (cur s)))
                     then let* r := adapter (CallOLIsbn
                                      (default ""%string (py_or (isbn13 (cur s)) (isbn (cur s)))))
                          in run sleep REQUEST_DELAY then ret r
                     else ret JNull) s' ol1 s' t) as [t1 R1].
  { destruct (truthy_ostr (py_or (isbn13 (cur s)) (isbn (cur s)))).
    - eexists. eapply call_then_sleep_again. exact H1.
    - apply returns_ret_inv in H1 as (-> & -> & ->). eexists. apply returns_ret_intro. }
  assert (exists t,
            returns (if negb (truthy ol1) && truthy_str (title (cur s))
                     then let* r := adapter (CallOLSearch (title (cur s)) (author (cur s)))
                          in run sleep REQUEST_DELAY then ret r
                     else ret ol1) s' ol s' t) as [t2 R2].
  { destruct (negb (truthy ol1) && truthy_str (title (cur s))).
    - eexists. eapply call_then_sleep_again. exact H2.
    - apply returns_ret_inv in H2 as (-> & -> & ->). eexists. apply returns_ret_intro. }
  assert (exists t,
            returns (if truthy ol
                     then let* works_key := lift (works_key_of ol) in
                          if truthy works_key && ns'
                          then let* r := adapter (CallOLWorks works_key)
                               in run sleep REQUEST_DELAY then ret r
                          else ret JNull
                     else ret JNull) s' (if ns' then wk else JNull) s' t) as [t3 R3].
  { destruct (truthy ol).
    - apply returns_bind_inv in H3 as (key & sk & tk & tl & Hkey & H3 & ->).
      apply returns_lift_inv in Hkey as (Hkey & -> & ->).
      rewrite Hkey. destruct ns'.
      + rewrite (Hns eq_refl) in H3. destruct (truthy key) eqn:Hk; cbn [andb] in H3.
        * eexists. eapply returns_bind_intro; [reflexivity | ].
          cbn beta. rewrite Hk. cbn [andb].
          eapply call_then_sleep_again. exact H3.
        * apply returns_ret_inv in H3 as (-> & -> & ->).
          eexists. eapply returns_bind_intro; [reflexivity | ].
          cbn beta. rewrite Hk. apply returns_ret_intro.
      + eexists. eapply returns_bind_intro; [reflexivity | ].
        cbn beta. rewrite andb_false_r. apply returns_ret_intro.
    - apply returns_ret_inv in H3 as (-> & -> & ->).
      destruct ns'; eexists; apply returns_ret_intro. }
  assert (exists t,
            returns (if nc' || ns'
                     then let* r := adapter (CallGoogle (py_or (isbn13 (cur s)) (isbn (cur s)))
                                               (title (cur s)) (author (cur s)))
                          in run sleep REQUEST_DELAY then ret r
                     else ret JNull) s' (if nc' || ns' then g else JNull) s' t) as [t4 R4].
  { destruct (nc' || ns').
    - rewrite (Hg eq_refl) in H4. eexists. eapply call_then_sleep_again. exact H4.
    - eexists. apply returns_ret_intro. }
  eexists.
  eapply returns_bind_intro; [reflexivity | ].
  rewrite E1, E2, E3, E4.
  eapply returns_bind_intro; [exact R1 | ].
  eapply returns_bind_intro; [exact R2 | ].
  eapply returns_bind_intro; [exact R3 | ].
  eapply returns_bind_intro; [exact R4 | ].
  apply returns_ret_intro.
Qed.

(** A step of the fusion that finds nothing leaves the book and the flag
    as they are. *)
Lemma fusion_skips nc ns np npub ol wk g u s :
  ((nc = true -> exists v, select_cover ol g = inr v /\ truthy v = false) ->
   returns (apply_cover nc ol g u) s u s []) /\
  ((ns = true -> exists v, select_summary wk g = inr v /\ truthy v = false) ->
   returns (apply_summary ns wk g u) s u s []) /\
  ((np = true -> exists v, select_page_count ol g = inr v /\ truthy v = false) ->
   returns (apply_page_count np ol g u) s u s []) /\
  ((npub = true -> exists v, select_publisher ol g = inr v /\ truthy v = false) ->
   returns (apply_publisher npub ol g u) s u s []) /\
  ((truthy ol && negb (truthy (openlibrary_key (cur s))) = true ->
    exists v, py_get ol "key" JNull = inr v /\ truthy v = false) ->
   returns (store_key ol u) s u s []).
Proof.
  unfold apply_cover, apply_summary, apply_page_count, apply_publisher, store_key, returns.
  repeat split; intros H.
  - destruct nc; [ | reflexivity]. destruct (H eq_refl) as (v & Hv & Ht).
    unfold bind, lift. rewrite Hv. cbn [value final events]. rewrite Ht. reflexivity.
  - destruct ns; [ | reflexivity]. destruct (H eq_refl) as (v & Hv & Ht).
    unfold bind, lift. rewrite Hv. cbn [value final events]. rewrite Ht. reflexivity.
  - destruct np; [ | reflexivity]. destruct (H eq_refl) as (v & Hv & Ht).
    unfold bind, lift. rewrite Hv. cbn [value final events]. rewrite Ht. reflexivity.
  - destruct npub; [ | reflexivity]. destruct (H eq_refl) as (v & Hv & Ht).
    unfold bind, lift. rewrite Hv. cbn [value final events]. rewrite Ht. reflexivity.
  - unfold bind, get_book. cbn [value final events].
    destruct (truthy ol && negb (truthy (openlibrary_key (cur s)))); [ | reflexivity].
    destruct (H eq_refl) as (v & Hv & Ht).
    unfold lift. rewrite Hv. cbn [value final events]. rewrite Ht. reflexivity.
Qed.

(** A field that is still missing after a step that returned was missing
    before, and the records gave nothing for it. *)
Lemma fusion_still_missing ol wk g :
  (forall nc u s u' s' tr,
     returns (apply_cover nc ol g u) s u' s' tr -> nc = needs false (cover_url (cur s)) ->
     needs false (cover_url (cur s')) = true ->
     nc = true /\ exists v, select_cover ol g = inr v /\ truthy v = false) /\
  (forall ns u s u' s' tr,
     returns (apply_summary ns wk g u) s u' s' tr -> ns = needs false (summary (cur s)) ->
     needs false (summary (cur s')) = true ->
     ns = true /\ exists v, select_summary wk g = inr v /\ truthy v = false) /\
  (forall np u s u' s' tr,
     returns (apply_page_count np ol g u) s u' s' tr ->
     np = needs false (page_count (cur s)) ->
     needs false (page_count (cur s')) = true ->
     np = true /\ exists v, select_page_count ol g = inr v /\ truthy v = false) /\
  (forall npub u s u' s' tr,
     returns (apply_publisher npub ol g u) s u' s' tr ->
     npub = needs false (publisher (cur s)) ->
     needs false (publisher (cur s')) = true ->
     npub = true /\ exists v, select_publisher ol g = inr v /\ truthy v = false) /\
  (forall u s u' s' tr,
     returns (store_key ol u) s u' s' tr ->
     truthy ol && negb (truthy (openlibrary_key (cur s'))) = true ->
     exists v, py_get ol "key" JNull = inr v /\ truthy v = false).
Proof.
  unfold needs. cbn [orb].
  split; [ | split; [ | split; [ | split]]];
    [ intros n u s u' s' tr H Hn Hn'; apply apply_cover_returns in H
    | intros n u s u' s' tr H Hn Hn'; apply apply_summary_returns in H
    | intros n u s u' s' tr H Hn Hn'; apply apply_page_count_returns in H
    | intros n u s u' s' tr H Hn Hn'; apply apply_publisher_returns in H
    | intros u s u' s' tr H Hn'; apply store_key_returns in H ];
    destruct H as [_ H].
  1-4: destruct n;
    [ destruct H as (v & Hv & H); split; [reflexivity | ]; exists v; split; [exact Hv | ];
      destruct (truthy v) eqn:Ht; [ | reflexivity];
      destruct H as [-> _]; cbn in Hn'; rewrite Ht in Hn'; discriminate
    | destruct H as [-> _]; congruence ].
  apply andb_prop in Hn' as [Hol Hk]. rewrite Hol in H. cbn [andb] in H.
  destruct (negb (truthy (openlibrary_key (cur s)))) eqn:Hk0.
  - destruct H as (v & Hv & H). exists v. split; [exact Hv | ].
    destruct (truthy v) eqn:Ht; [ | reflexivity].
    destruct H as [-> _]. cbn in Hk. rewrite Ht in Hk. discriminate.
  - destruct H as [-> _]. congruence.
Qed.

(** Without the Secondary record, a page count or a publisher that was not
    found is still not found. *)
Lemma select_page_count_without ol g v :
  select_page_count ol g = inr v -> truthy v = false ->
  exists v', select_page_count ol JNull = inr v' /\ truthy v' = false.
Proof.
  unfold select_page_count. cbn [truthy].
  destruct (truthy ol); cbn [rbind rret].
  - destruct (py_get ol "number_of_pages" JNull) as [e | n]; cbn [rbind rret];
      [discriminate | ].
    destruct (truthy n); cbn [rbind rret]; eauto.
  - eauto.
Qed.

Lemma select_publisher_without ol g v :
  select_publisher ol g = inr v -> truthy v = false ->
  exists v', select_publisher ol JNull = inr v' /\ truthy v' = false.
Proof.
  unfold select_publisher. cbn [truthy].
  destruct (truthy ol); eauto.
Qed.

(** X15: a second run without force, straight after a run that returned,
    changes nothing: it returns [False], leaves the book and the table as
    the first run left them and issues no UPDATE (it may call the adapters
    again for the fields still missing). *)
Theorem second_run_changes_nothing (s : state) (b : bool) :
  value (enrich_book false s) = inr b ->
  value (enrich_book false (final (enrich_book false s))) = inr false /\
  final (enrich_book false (final (enrich_book false s))) = final (enrich_book false s) /\
  updates (events (enrich_book false (final (enrich_book false s)))) = O.
Proof.
  intros Hret.
  destruct (enrich_book_preserves_identity false s) as (_ & Ei & Ei13 & Et & Ea).
  apply returns_of_value, enrich_book_returns in Hret. cbv zeta in Hret.
  remember (final (enrich_book false s)) as sf eqn:Hsf. clear Hsf.
  destruct Hret as [(Hn & _ & -> & _) | (_ & Hrun)].
  { rewrite value_enrich_book, final_enrich_book, events_enrich_book, Hn. auto. }
  destruct Hrun as (ol & wk & g & tr0 & u1 & sa & u2 & sb & u3 & sc & u4 & sd & u5 & se
                    & trs & Hf & H1 & H2 & H3 & H4 & H5 & H6 & _).
  pose proof (save_frame _ _ _ _ _ H6) as Hcur.
  pose proof (apply_cover_frame _ _ _ _ _ _ _ _ H1) as (S1 & P1 & B1 & K1 & _).
  pose proof (apply_summary_frame _ _ _ _ _ _ _ _ H2) as (C2 & P2 & B2 & K2 & _).
  pose proof (apply_page_count_frame _ _ _ _ _ _ _ _ H3) as (C3 & S3 & B3 & K3 & _).
  pose proof (apply_publisher_frame _ _ _ _ _ _ _ _ H4) as (C4 & S4 & P4 & K4 & _).
  pose proof (store_key_frame _ _ _ _ _ _ H5) as (C5 & S5 & P5 & B5 & _).
  destruct (fusion_still_missing ol wk g) as (M1 & M2 & M3 & M4 & M5).
  assert (needs false (cover_url (cur sf)) = true ->
          needs false (cover_url (cur s)) = true /\
          exists v, select_cover ol g = inr v /\ truthy v = false) as A1.
  { intros Hn. apply (M1 _ _ _ _ _ _ H1 eq_refl). congruence. }
  assert (needs false (summary (cur sf)) = true ->
          needs false (summary (cur s)) = true /\
          exists v, select_summary wk g = inr v /\ truthy v = false) as A2.
  { intros Hn. apply (M2 _ _ _ _ _ _ H2); congruence. }
  assert (needs false (page_count (cur sf)) = true ->
          exists v, select_page_count ol g = inr v /\ truthy v = false) as A3.
  { intros Hn. apply (M3 _ _ _ _ _ _ H3); congruence. }
  assert (needs false (publisher (cur sf)) = true ->
          exists v, select_publisher ol g = inr v /\ truthy v = false) as A4.
  { intros Hn. apply (M4 _ _ _ _ _ _ H4); congruence. }
  assert (truthy ol && negb (truthy (openlibrary_key (cur sf))) = true ->
          exists v, py_get ol "key" JNull = inr v /\ truthy v = false) as A5.
  { intros Hn. apply (M5 _ _ _ _ _ H5). congruence. }
  rewrite value_enrich_book, final_enrich_book, events_enrich_book.
  match goal with |- context [if ?c then _ else _] => destruct c end; [auto | ].
  remember (needs false (cover_url (cur sf))) as nc' eqn:Hnc'.
  remember (needs false (summary (cur sf))) as ns' eqn:Hns'.
  remember (needs false (page_count (cur sf))) as np' eqn:Hnp'.
  remember (needs false (publisher (cur sf))) as npub' eqn:Hnpub'.
  clear Hnc' Hns' Hnp' Hnpub'.
  destruct (fetch_records_again _ _ nc' ns' _ _ sf _ _ _ _ Hf) as [tr' Hf'];
    try congruence.
  { intros ->. apply A2. reflexivity. }
  { intros Hn. apply orb_prop in Hn as [-> | ->].
    - destruct (A1 eq_refl) as [-> _]. reflexivity.
    - destruct (A2 eq_refl) as [-> _]. apply orb_true_r. }
  assert (updates tr' = O) as Hup.
  { pose proof (fetch_records_updates nc' ns' sf) as Hle.
    rewrite (returns_events _ _ _ _ _ Hf') in Hle. lia. }
  assert (returns (enrich_needed nc' ns' np' npub') sf false sf (tr' ++ [])) as Hrun2.
  { unfold enrich_needed.
    eapply returns_bind_intro; [exact Hf' | ]. cbn beta iota.
    destruct (fusion_skips nc' ns' np' npub' ol (if ns' then wk else JNull)
                (if nc' || ns' then g else JNull) false sf) as (K1' & K2' & K3' & K4' & K5').
    eapply (returns_bind_intro _ _ _ _ _ [] _ _ []).
    { apply K1'. intros ->. cbn [orb]. apply A1. reflexivity. }
    eapply (returns_bind_intro _ _ _ _ _ [] _ _ []).
    { apply K2'. intros ->. rewrite orb_true_r. apply A2. reflexivity. }
    eapply (returns_bind_intro _ _ _ _ _ [] _ _ []).
    { apply K3'. intros ->. destruct (A3 eq_refl) as (v & Hv & Ht).
      destruct (nc' || ns'); eauto using select_page_count_without. }
    eapply (returns_bind_intro _ _ _ _ _ [] _ _ []).
    { apply K4'. intros ->. destruct (A4 eq_refl) as (v & Hv & Ht).
      destruct (nc' || ns'); eauto using select_publisher_without. }
    eapply (returns_bind_intro _ _ _ _ _ [] _ _ []).
    { apply K5'. exact A5. }
    reflexivity. }
  rewrite (returns_value _ _ _ _ _ Hrun2), (returns_final _ _ _ _ _ Hrun2),
    (returns_events _ _ _ _ _ Hrun2), app_nil_r.
  auto.
Qed.

End Properties.

(** ** The properties on the samples *)

(** C1, counterexample: a page count of [0] is not null, and without
    force [enrich_book] overwrites it with the Primary's 412. *)
Lemma zero_page_count_is_overwritten :
  page_count (cur (catalog_of book_zero_pages)) = JNum 0 /\
  JNum 0 <> JNull /\
  page_count (cur (final (enrich_book plain_str w_pages false (catalog_of book_zero_pages))))
    = JNum 412.
Proof. split; [reflexivity | split; [discriminate | vm_compute; reflexivity]]. Qed.

(** The cover of a complete book with page count [0] stays, while the page
    count is looked up. *)
Lemma enrich_book_fills_gaps_only_witness :
  truthy (cover_url (cur (catalog_of book_zero_pages))) = true /\
  cover_url (cur (final (enrich_book plain_str w_pages false (catalog_of book_zero_pages))))
    = cover_url (cur (catalog_of book_zero_pages)).
Proof.
  split; [reflexivity | ].
  destruct (enrich_book_fills_gaps_only plain_str w_pages false (catalog_of book_zero_pages))
    as [H _].
  destruct (H eq_refl) as [Hc _]. apply Hc. reflexivity.
Defined.

(** C4, counterexample: none of the four fields of the book is null, yet
    without force [enrich_book] calls an adapter, changes the book and
    returns [True]. *)
Lemma zero_page_count_triggers_lookup :
  cover_url book_zero_pages <> JNull /\ summary book_zero_pages <> JNull /\
  page_count book_zero_pages <> JNull /\ publisher book_zero_pages <> JNull /\
  value (enrich_book plain_str w_pages false (catalog_of book_zero_pages)) = inr true /\
  calls (events (enrich_book plain_str w_pages false (catalog_of book_zero_pages))) = 1%nat /\
  cur (final (enrich_book plain_str w_pages false (catalog_of book_zero_pages)))
    <> book_zero_pages.
Proof. repeat split; try discriminate; vm_compute; (reflexivity || discriminate). Qed.

(** A complete book is left alone. *)
Lemma enrich_book_complete_is_noop_witness :
  value (enrich_book plain_str w_pages false (catalog_of book_complete)) = inr false /\
  final (enrich_book plain_str w_pages false (catalog_of book_complete))
    = catalog_of book_complete /\
  events (enrich_book plain_str w_pages false (catalog_of book_complete)) = [].
Proof.
  apply (enrich_book_complete_is_noop plain_str w_pages (catalog_of book_complete));
    reflexivity.
Defined.

(** C5, counterexample: the ISBN lookup returns a record with the
    description [{value: "X"}] and the cover ids [[42]]; the cover and the
    key are taken from it, the summary is not. *)
Lemma isbn_record_description_is_not_read :
  isbn13 book_imported = Some dune_isbn /\
  run_adapter plain_str w_described (CallOLIsbn dune_isbn) = inr record_described /\
  value (enrich_book plain_str w_described false (catalog_of book_imported)) = inr true /\
  cover_url (cur (final (enrich_book plain_str w_described false (catalog_of book_imported))))
    = JStr "https://covers.openlibrary.org/b/id/42-L.jpg" /\
  openlibrary_key (cur (final (enrich_book plain_str w_described false
                                 (catalog_of book_imported))))
    = JStr "/books/OL1M" /\
  summary (cur (final (enrich_book plain_str w_described false (catalog_of book_imported))))
    = JNull.
Proof. repeat split; vm_compute; reflexivity. Qed.

(** With the description in the works record, the book gets all three. *)
Lemma isbn_only_book_is_fused_witness :
  summary (cur (final (enrich_book plain_str w_works false (catalog_of book_imported))))
    = JStr "X" /\
  cover_url (cur (final (enrich_book plain_str w_works false (catalog_of book_imported))))
    = JStr "https://covers.openlibrary.org/b/id/42-L.jpg" /\
  openlibrary_key (cur (final (enrich_book plain_str w_works false (catalog_of book_imported))))
    = JStr "/books/OL1M".
Proof.
  apply (isbn_only_book_is_fused plain_str w_works (catalog_of book_imported)
           dune_isbn "X" 42 (JStr "/books/OL1M") (JStr "/works/OL893415W")
           [("key"%string, JStr "/books/OL1M");
            ("covers"%string, JArr [JNum 42]);
            ("works"%string, JArr [JObj [("key"%string, JStr "/works/OL893415W")]])]
           [("description"%string, JObj [("value"%string, JStr "X")])] true);
    vm_compute; reflexivity.
Defined.



(** C2, the code at the failing input: the Primary record has no
    publisher, the Secondary record has ["Ace Books"], the publisher is
    needed, and the book is left without publisher. *)
Lemma publisher_fallback_missed :
  value (fetch_records plain_str w_publisher_secondary true true (catalog_of book_imported))
    = inr (record_key, JNull, volume_publisher) /\
  py_get record_key "publishers" (JArr []) = inr (JArr []) /\
  py_get volume_publisher "publisher" JNull = inr (JStr "Ace Books") /\
  select_publisher record_key volume_publisher = inr JNull /\
  value (enrich_book plain_str w_publisher_secondary false (catalog_of book_imported))
    = inr true /\
  publisher (cur (final (enrich_book plain_str w_publisher_secondary false
                           (catalog_of book_imported)))) = JNull.
Proof. repeat split; vm_compute; reflexivity. Qed.

(** C10, the code at the failing input: the Primary record names the
    publisher [""], the Secondary record ["Ace Books"]; the empty name is
    not written, and the Secondary's is not tried. *)
Lemma empty_primary_publisher_blocks_fallback :
  value (fetch_records plain_str w_empty_publisher true true (catalog_of book_imported))
    = inr (record_empty_publisher, JNull, volume_publisher) /\
  select_publisher record_empty_publisher volume_publisher = inr (JStr "") /\
  py_get volume_publisher "publisher" JNull = inr (JStr "Ace Books") /\
  value (enrich_book plain_str w_empty_publisher false (catalog_of book_imported))
    = inr true /\
  publisher (cur (final (enrich_book plain_str w_empty_publisher false
                           (catalog_of book_imported)))) = JNull.
Proof. repeat split; vm_compute; reflexivity. Qed.

(** The Primary says 412 pages, the Secondary 500: the book gets 412. *)
Lemma page_count_precedence_witness :
  supplies record_pages "number_of_pages" (JNum 412) /\
  supplies volume_pages "pageCount" (JNum 500) /\
  page_count (cur (final (enrich_book plain_str w_both_pages false (catalog_of book_imported))))
    = JNum 412.
Proof.
  assert (supplies record_pages "number_of_pages" (JNum 412)) as Hp
    by (repeat split; reflexivity).
  split; [exact Hp | ]. split; [repeat split; reflexivity | ].
  apply (proj1 (page_count_precedence plain_str w_both_pages false (catalog_of book_imported)
                  true record_pages JNull volume_pages
                  ltac:(vm_compute; reflexivity) ltac:(reflexivity)
                  ltac:(vm_compute; reflexivity))).
  exact Hp.
Defined.

(** The ISBN lookup of a run is followed by the delay. *)
Lemma delay_after_every_adapter_call_witness :
  events (enrich_book plain_str w_pages false (catalog_of book_zero_pages)) !! 0%nat
    = Some (EvCall (CallOLIsbn dune_isbn) (inr record_pages)) /\
  events (enrich_book plain_str w_pages false (catalog_of book_zero_pages)) !! 1%nat
    = Some (EvSleep REQUEST_DELAY).
Proof.
  assert (events (enrich_book plain_str w_pages false (catalog_of book_zero_pages)) !! 0%nat
          = Some (EvCall (CallOLIsbn dune_isbn) (inr record_pages))) as H0
    by (vm_compute; reflexivity).
  split; [exact H0 | ].
  exact (proj1 (delay_after_every_adapter_call plain_str w_pages false
                  (catalog_of book_zero_pages)) 0%nat _ _ H0).
Defined.


(** C9: there is a run of [enrich_book] that returns [True] and writes the
    book's row although none of the four enrichable fields changed, the
    key being the only news; and whenever a run that returns obtained a
    Primary record with a key while the book had none, it returns [True],
    the book holds the key, and the run ends with the UPDATE of the row. *)
Theorem key_alone_counts_as_update :
  (exists cs w s,
     value (enrich_book cs w false s) = inr true /\
     cover_url (cur (final (enrich_book cs w false s))) = cover_url (cur s) /\
     summary (cur (final (enrich_book cs w false s))) = summary (cur s) /\
     page_count (cur (final (enrich_book cs w false s))) = page_count (cur s) /\
     publisher (cur (final (enrich_book cs w false s))) = publisher (cur s) /\
     openlibrary_key (cur s) = JNull /\
     openlibrary_key (cur (final (enrich_book cs w false s))) = JStr "/books/OL1M" /\
     last (events (enrich_book cs w false s))
       = Some (EvUpdate (cur (final (enrich_book cs w false s)))) /\
     db s !! 7 = Some (cur s) /\
     db (final (enrich_book cs w false s)) !! 7
       = Some (cur (final (enrich_book cs w false s)))) /\
  (forall cs w force s b ol wk g k,
     value (enrich_book cs w force s) = inr b ->
     needs force (cover_url (cur s)) || needs force (summary (cur s))
       || needs force (page_count (cur s)) || needs force (publisher (cur s)) = true ->
     value (fetch_records cs w (needs force (cover_url (cur s)))
              (needs force (summary (cur s))) s) = inr (ol, wk, g) ->
     truthy ol = true ->
     truthy (openlibrary_key (cur s)) = false ->
     py_get ol "key" JNull = inr k -> truthy k = true ->
     b = true /\
     openlibrary_key (cur (final (enrich_book cs w force s))) = k /\
     (exists tr0,
        events (enrich_book cs w force s)
          = tr0 ++ [EvUpdate (cur (final (enrich_book cs w force s)))]) /\
     db (final (enrich_book cs w force s))
       = updated_rows (cur (final (enrich_book cs w force s))) (db s)).
Proof.
  split.
  - exists plain_str, w_key, (catalog_of book_no_pages).
    repeat split; vm_compute; reflexivity.
  - intros cs w force s b ol wk g k. apply key_memo_is_saved.
Qed.

(** The general part on the book that lacks page count and key. *)
Lemma key_alone_counts_as_update_witness :
  value (enrich_book plain_str w_key false (catalog_of book_no_pages)) = inr true /\
  openlibrary_key (cur (final (enrich_book plain_str w_key false (catalog_of book_no_pages))))
    = JStr "/books/OL1M".
Proof.
  destruct (proj2 key_alone_counts_as_update plain_str w_key false (catalog_of book_no_pages)
              true record_key JNull JNull (JStr "/books/OL1M")
              ltac:(vm_compute; reflexivity) ltac:(reflexivity)
              ltac:(vm_compute; reflexivity) ltac:(reflexivity) ltac:(reflexivity)
              ltac:(reflexivity) ltac:(reflexivity))
    as (_ & Hk & _).
  split; [vm_compute; reflexivity | exact Hk].
Defined.

(** ** The further properties on the samples *)

(** A book that lacks the page count only costs the ISBN lookup. *)
Lemma no_supplement_without_need_witness :
  Forall (fun e => is_supplement_call e = false)
         (events (enrich_book plain_str w_pages false (catalog_of book_no_pages))).
Proof.
  apply (no_supplement_without_need plain_str w_pages (catalog_of book_no_pages));
    reflexivity.
Defined.

(** The page count is found, the run returns [True] and has issued one
    UPDATE. *)
Lemma changed_flag_tells_the_write_witness :
  value (enrich_book plain_str w_pages false (catalog_of book_no_pages)) = inr true /\
  updates (events (enrich_book plain_str w_pages false (catalog_of book_no_pages))) = 1%nat.
Proof.
  assert (value (enrich_book plain_str w_pages false (catalog_of book_no_pages)) = inr true)
    as Hret by (vm_compute; reflexivity).
  split; [exact Hret | ].
  pose proof (changed_flag_tells_the_write plain_str w_pages false
                (catalog_of book_no_pages) true Hret) as H.
  cbn iota in H. destruct H as (_ & H & _). exact H.
Defined.

(** A book object without id, beside the row of another book. *)
Lemma book_without_id_is_never_saved_witness :
  db (final (enrich_book plain_str w_pages false
               (mkState book_unsaved (db (catalog_of book_complete)))))
  = db (catalog_of book_complete).
Proof.
  destruct (book_without_id_is_never_saved plain_str w_pages false
              (mkState book_unsaved (db (catalog_of book_complete)))) as [H _].
  - reflexivity.
  - exact H.
Defined.


(** A catalog of two rows: enriching row 7 leaves row 8 as it was. *)
Lemma enrich_by_id_touches_one_row_witness :
  db (final (enrich_by_id plain_str w_pages 7 false
               (mkState book_complete (<[8 := book_blank]> (db (catalog_of book_no_pages))))))
    !! 8
  = Some book_blank.
Proof.
  destruct (enrich_by_id_touches_one_row plain_str w_pages 7 false
              (mkState book_complete (<[8 := book_blank]> (db (catalog_of book_no_pages)))))
    as [H _].
  - intros row Hrow. vm_compute in Hrow. injection Hrow as <-. reflexivity.
  - rewrite (H 8); [vm_compute; reflexivity | discriminate].
Defined.

(** The search that raises [AttributeError] leaves the table alone. *)
Lemma raising_run_writes_nothing_witness :
  db (final (enrich_book plain_str w_search_array false (catalog_of book_title_only)))
  = db (catalog_of book_title_only) /\
  updates (events (enrich_book plain_str w_search_array false (catalog_of book_title_only)))
  = O.
Proof.
  apply (raising_run_writes_nothing plain_str w_search_array false
           (catalog_of book_title_only) AttributeError).
  vm_compute. reflexivity.
Defined.

(** A batch of two: one book gets its page count, the other is complete. *)
Lemma batch_counts_the_updates_witness :
  1%nat = updates (events (enrich_books plain_str w_pages false [book_no_pages; book_complete]
                             O (catalog_of book_no_pages))) /\
  (1 <= length [book_no_pages; book_complete])%nat.
Proof.
  apply (batch_counts_the_updates plain_str w_pages false [book_no_pages; book_complete]
           (catalog_of book_no_pages) 1%nat).
  vm_compute. reflexivity.
Defined.

(** The second book of three raises; the third is not looked up. *)
Lemma batch_stops_at_exception_witness :
  value (enrich_books plain_str w_search_array false
           ([book_complete] ++ book_title_only :: [book_imported]) O
           (catalog_of book_complete))
  = inl AttributeError.
Proof.
  destruct (batch_stops_at_exception plain_str w_search_array false [book_complete]
              [book_imported] book_title_only (catalog_of book_complete) O AttributeError)
    as [H _].
  - vm_compute. reflexivity.
  - vm_compute. reflexivity.
  - exact H.
Defined.

(** With force, the blank row is still left alone. *)
Lemma book_without_isbn_and_title_witness :
  value (enrich_book plain_str w_pages true (catalog_of book_blank)) = inr false /\
  final (enrich_book plain_str w_pages true (catalog_of book_blank)) = catalog_of book_blank.
Proof.
  destruct (book_without_isbn_and_title plain_str w_pages true (catalog_of book_blank))
    as (Hv & Hf & _).
  - reflexivity.
  - reflexivity.
  - split; [exact Hv | exact Hf].
Defined.

(** The ISBN of the imported row is unknown to the mocked Primary (404);
    the search by title follows. *)
Lemma search_only_after_isbn_miss_witness :
  exists r rest,
    events (enrich_book plain_str w_search_array false (catalog_of book_imported))
    = EvCall (CallOLIsbn dune_isbn) (inr JNull) :: EvSleep REQUEST_DELAY
      :: EvCall (CallOLSearch "Dune" (Some "Frank Herbert"%string)) r :: rest.
Proof.
  destruct (search_only_after_isbn_miss plain_str w_search_array false
              (catalog_of book_imported) dune_isbn) as [H _].
  - reflexivity.
  - reflexivity.
  - reflexivity.
  - reflexivity.
  - apply H. vm_compute. reflexivity.
Defined.


(** Once the page count is stored, a second run does nothing. *)
Lemma second_run_changes_nothing_witness :
  value (enrich_book plain_str w_pages false
           (final (enrich_book plain_str w_pages false (catalog_of book_no_pages))))
  = inr false.
Proof.
  destruct (second_run_changes_nothing plain_str w_pages (catalog_of book_no_pages) true)
    as [H _].
  - vm_compute. reflexivity.
  - exact H.
Defined.
